(** * The python2 function runtime of qinling: [runtimes/python2/server.py]

    A shallow embedding of the request handler [execute] and of the target
    of the child process, [_invoke_function], followed by the properties of
    the runtime that its specification states.

    Python values are a small inductive type and dictionaries are finite
    maps.  The handler and the child are functions in a state-and-exception
    monad.  The state holds the working directory (the log artifacts), the
    manager dictionary that parent and child share, the wall clock, and a
    trace of what the runtime does to the outside: sidecar calls, the spawn
    of the process, the ceilings, the import and the call of user code.
    User code and the sidecars are parameters, gathered in [environment].

    Left out, because nothing below depends on it: the diagnostic print of
    the handler to the server's own output, the JSON encoding of the
    response body, floating point (time is in milliseconds, JSON numbers are
    integers), a sidecar that does not answer at all, and a [setrlimit] that
    fails.  User code acts on the state through its standard output only. *)

From stdpp Require Import gmap strings list fin_maps.
From Stdlib Require Import ZArith String Ascii.

Set Warnings "-register-all".
Open Scope string_scope.
Open Scope Z_scope.

(** ** Python values *)

(** The values that occur in a request body (JSON), plus the one foreign
    object the handler creates itself: the keystone session.  JSON numbers
    are integers here; the handler only ever tests a number for truth. *)
Inductive value : Type :=
| VNone
| VBool (b : bool)
| VInt (z : Z)
| VStr (s : string)
| VList (l : list value)
| VDict (d : gmap string value)
| VSession (username password auth_url trust_id : value).

(** Truth value of an object, as [if x:] and [x or y] test it. *)
Definition truthy (v : value) : bool :=
  match v with
  | VNone => false
  | VBool b => b
  | VInt z => negb (z =? 0)
  | VStr s => negb (String.eqb s "")
  | VList l => match l with [] => false | _ => true end
  | VDict d => match map_to_list d with [] => false | _ => true end
  | VSession _ _ _ _ => true
  end.

(** [a or b] *)
Definition py_or (a b : value) : value := if truthy a then a else b.

(** ** Strings *)

Definition newline : string := String (ascii_of_nat 10) EmptyString.

(** [needle in hay] on strings. *)
Fixpoint str_contains (needle hay : string) : bool :=
  String.prefix needle hay ||
  match hay with
  | EmptyString => false
  | String _ rest => str_contains needle rest
  end.

(** The cut of [s] at its last [sep], when there is one. *)
Fixpoint rcut (sep : ascii) (s : string) : option (string * string) :=
  match s with
  | EmptyString => None
  | String c rest =>
      match rcut sep rest with
      | Some (a, b) => Some (String c a, b)
      | None => if Ascii.eqb c sep then Some (EmptyString, rest) else None
      end
  end.

(** [s.rsplit(sep, 1)] *)
Definition rsplit1 (sep : ascii) (s : string) : list string :=
  match rcut sep s with
  | Some (a, b) => [a; b]
  | None => [s]
  end.

Fixpoint has_char (c : ascii) (s : string) : bool :=
  match s with
  | EmptyString => false
  | String c' rest => Ascii.eqb c' c || has_char c rest
  end.

(** ** Exceptions *)

Inductive exception_class :=
| OSError | IOError | KeyError | ValueError | AttributeError | TypeError
| ImportError
| OtherException.   (* any other class deriving from Exception *)

(** A raised object: an instance of a class below [Exception] with its
    [str(e)], the [SystemExit] that [sys.exit(code)] raises, or another
    object that derives from [BaseException] only (KeyboardInterrupt,
    GeneratorExit). *)
Inductive exn :=
| ExcException (cls : exception_class) (str : string)
| ExcSystemExit (code : Z)
| ExcBase (str : string).

(** ** State, outcomes and the monad *)

Inductive rlimit_resource := RLIMIT_NOFILE | RLIMIT_NPROC | RLIMIT_FSIZE.

(** The two shapes of the call of the user's function. *)
Inductive call_shape :=
| CallPos (arg : value) (kw : gmap string value)    (* func(arg, ** input) *)
| CallKw (kw : gmap string value).                  (* func( ** input) *)

(** What the runtime does to the outside, in order. *)
Inductive event :=
| EvDownload (download_url function_id token : value)
| EvSpawn (execution_id : value) (zip_file_dir module_name method : string)
          (arg : value) (input : gmap string value)
| EvSetrlimit (t : rlimit_resource) (soft hard : Z)
| EvCglimit (cpu memory_size : value) (pid : Z)
| EvImport (path module_name : string)
| EvCall (module_name method : string) (shape : call_shape).

Record state := State {
  fs : gmap string string;            (* working directory: name to content *)
  return_dict : gmap string value;    (* the manager dict of the invocation *)
  clock : Z;                          (* wall clock, in milliseconds *)
  events : list event                 (* oldest first *)
}.

Inductive outcome (A : Type) :=
| Val (a : A)              (* normal completion *)
| Exc (e : exn)            (* an exception propagates *)
| Kill (sig : positive).   (* the process is killed by signal [sig] *)
Arguments Val {A} a.
Arguments Exc {A} e.
Arguments Kill {A} sig.

Definition M (A : Type) : Type := state → outcome A * state.

Definition ret {A} (a : A) : M A := λ s, (Val a, s).

Definition bind {A B} (m : M A) (k : A → M B) : M B :=
  λ s, match m s with
       | (Val a, s') => k a s'
       | (Exc e, s') => (Exc e, s')
       | (Kill sig, s') => (Kill sig, s')
       end.

Definition raise {A} (e : exn) : M A := λ s, (Exc e, s).

Declare Scope py_scope.
Delimit Scope py_scope with py.
Notation "x <- m ;; k" := (bind m (λ x, k))
  (at level 100, m at next level, right associativity) : py_scope.
Notation "m ;; k" := (bind m (λ _, k))
  (at level 100, right associativity) : py_scope.
Open Scope py_scope.

(** [try: body  except Exception as e: handler cls str(e)] *)
Definition try_except {A} (body : M A)
    (handler : exception_class → string → M A) : M A :=
  λ s, match body s with
       | (Exc (ExcException cls str), s') => handler cls str s'
       | r => r
       end.

(** [try: body  finally: final].  A process killed in [body] runs nothing
    more. *)
Definition try_finally {A} (body : M A) (final : M unit) : M A :=
  λ s, match body s with
       | (Kill sig, s') => (Kill sig, s')
       | (r, s') =>
           match final s' with
           | (Val _, s'') => (r, s'')
           | (Exc e, s'') => (Exc e, s'')
           | (Kill sig, s'') => (Kill sig, s'')
           end
       end.

Definition emit (ev : event) : M unit :=
  λ s, (Val tt, State (fs s) (return_dict s) (clock s) (events s ++ [ev])).

(** [sys.exit(code)] *)
Definition sys_exit {A} (code : Z) : M A := raise (ExcSystemExit code).

(** [time.time()] *)
Definition time_time : M Z := λ s, (Val (clock s), s).

(** *** Dictionaries *)

(** [v.get(k)]: [None] for a missing key; an object that is no dict has no
    such method. *)
Definition dict_get (v : value) (k : string) : M value :=
  match v with
  | VDict d => ret (default VNone (d !! k))
  | _ => raise (ExcException AttributeError "get")
  end.

(** [v[k]] for a string [k]. *)
Definition dict_getitem (v : value) (k : string) : M value :=
  match v with
  | VDict d =>
      match d !! k with
      | Some x => ret x
      | None => raise (ExcException KeyError k)
      end
  | _ => raise (ExcException TypeError "getitem")
  end.

(** [v.update({k: x})], giving the updated dictionary. *)
Definition dict_update (v : value) (k : string) (x : value)
    : M (gmap string value) :=
  match v with
  | VDict d => ret (<[k := x]> d)
  | _ => raise (ExcException AttributeError "update")
  end.

(** [return_dict[k] = x] *)
Definition return_dict_set (k : string) (x : value) : M unit :=
  λ s, (Val tt, State (fs s) (<[k := x]> (return_dict s)) (clock s) (events s)).

(** [return_dict.get(k)] *)
Definition return_dict_get (k : string) : M value :=
  λ s, (Val (default VNone (return_dict s !! k)), s).

(** [return_dict[k]] *)
Definition return_dict_getitem (k : string) : M value :=
  λ s, match return_dict s !! k with
       | Some x => (Val x, s)
       | None => (Exc (ExcException KeyError k), s)
       end.

(** [return_dict = manager.dict()]: a fresh, empty shared dictionary. *)
Definition manager_dict : M unit :=
  λ s, (Val tt, State (fs s) ∅ (clock s) (events s)).

(** *** Files *)

(** [open(name, "w", 0)]: the file is created, or emptied. *)
Definition open_w (name : string) : M unit :=
  λ s, (Val tt, State (<[name := ""]> (fs s)) (return_dict s) (clock s) (events s)).

(** An unbuffered write to the open file [name]. *)
Definition write (name : string) (text : string) : M unit :=
  λ s, (Val tt, State (<[name := default "" (fs s !! name) +:+ text]> (fs s))
                      (return_dict s) (clock s) (events s)).

(** [print(text)] once [sys.stdout] is the file [name]. *)
Definition print (name : string) (text : string) : M unit :=
  write name (text +:+ newline).

(** [with open(name) as f: f.read()] *)
Definition read_file (name : string) : M string :=
  λ s, match fs s !! name with
       | Some text => (Val text, s)
       | None => (Exc (ExcException IOError name), s)
       end.

(** [os.remove(name)] *)
Definition os_remove (name : string) : M unit :=
  λ s, match fs s !! name with
       | Some _ => (Val tt, State (delete name (fs s)) (return_dict s) (clock s) (events s))
       | None => (Exc (ExcException OSError name), s)
       end.

(** ** The outside of the runtime *)

Record http_response := HttpResponse { ok : bool; content : string }.

(** A piece of user code as the runtime sees it: what it prints, how long
    it takes, and how it ends. *)
Record run (A : Type) := Run {
  run_stdout : string;
  run_ms : Z;
  run_end : outcome A
}.
Arguments Run {A} _ _ _.
Arguments run_stdout {A} _.
Arguments run_ms {A} _.
Arguments run_end {A} _.

(** A function of a user module, called in one of the two shapes. *)
Definition callable : Type := call_shape → run value.
(** A loaded module: [getattr(module, name)] where the attribute exists. *)
Definition pymodule : Type := string → option callable.

(** Everything the handler reaches outside this file. *)
Record environment := Environment {
  (* ['%s' % v] *)
  pystr : value → string;
  (* the download sidecar, POST http://localhost:9091/download *)
  download : value → value → value → http_response;
  (* the cglimit sidecar, POST http://localhost:9092/cglimit *)
  cglimit : value → value → Z → http_response;
  (* [os.getpid()] in the child *)
  getpid : Z;
  (* [resource.getrlimit(t)]: soft and hard limit *)
  getrlimit : rlimit_resource → Z * Z;
  (* [importlib.import_module(name)] with the package directory first on
     [sys.path] *)
  import_module : string → string → run pymodule;
  (* the text of [traceback.format_exception] for a caught exception *)
  format_exception : exception_class → string → string
}.

(** User code running with its standard output in the file [out]: the text
    is in the file whatever the end, and the time has passed. *)
Definition run_user {A} (out : string) (r : run A) : M A :=
  λ s, (run_end r,
        State (<[out := default "" (fs s !! out) +:+ run_stdout r]> (fs s))
              (return_dict s) (clock s + run_ms r) (events s)).

(** ** Constants and the response *)

Definition DOWNLOAD_ERROR : string :=
  "Failed to download function package from %s, error: %s".
Definition INVOKE_ERROR : string :=
  "Function execution failed because of too much resource " +:+
  "consumption".

(** The Flask response: the four entries of its JSON object, the status
    code and the mime type.  The duration is in milliseconds. *)
Record response := Response {
  output : value;
  duration : Z;
  logs : string;
  success : value;
  status : Z;
  mimetype : string
}.

Definition _get_responce (output : value) (duration : Z) (logs : string)
    (success : value) (code : Z) : response :=
  Response output duration logs success code "application/json".

(** The [rlimit] dictionary, which has exactly these two keys. *)
Record rlimit_t := Rlimit { cpu : value; memory_size : value }.

(** The local variables of [execute] once the request is read. *)
Record request := Request {
  input : value;
  execution_id : value;
  download_url : value;
  function_id : value;
  entry : value;
  request_id : value;
  trust_id : value;
  auth_url : value;
  username : value;
  password : value;
  zip_file_dir : string;
  rlimit : rlimit_t;
  function_module : string;
  function_method : string
}.

(** [entry.rsplit('.', 1)]: a method of strings. *)
Definition str_rsplit1 (v : value) : M (list string) :=
  match v with
  | VStr s => ret (rsplit1 "." s)
  | _ => raise (ExcException AttributeError "rsplit")
  end.

(** [a, b = tuple(l)] *)
Definition unpack2 (l : list string) : M (string * string) :=
  match l with
  | [a; b] => ret (a, b)
  | _ => raise (ExcException ValueError "unpack")
  end.

(** [exitcode] of a joined process: 0 when the target returns, the low
    byte of the code of a [SystemExit], 1 for any other exception that
    leaves the target, minus the signal for a killed process. *)
Definition exitcode_of {A} (o : outcome A) : Z :=
  match o with
  | Val _ => 0
  | Exc (ExcSystemExit code) => code `mod` 256
  | Exc _ => 1
  | Kill sig => - Z.pos sig
  end.

(** [p.start(); p.join()] for a process with the given target. *)
Definition start_join (target : M unit) : M Z :=
  λ s, let '(o, s') := target s in (Val (exitcode_of o), s').

Section Runtime.

Context (E : environment).

(** ** The child process *)

Definition customized_limits : list (rlimit_resource * Z) :=
  [(RLIMIT_NOFILE, 1024); (RLIMIT_NPROC, 128); (RLIMIT_FSIZE, 61440)].

Definition _set_ulimit : M unit :=
  foldr (λ '(t, soft) rest,
           let hard := snd (getrlimit E t) in
           emit (EvSetrlimit t soft hard);; rest)
        (ret tt) customized_limits.

(** Once [sys.stdout] is the file [out]. *)
Definition _print_trace (out : string) (cls : exception_class) (str : string)
    : M unit :=
  print out (format_exception E cls str).

(** [getattr(module, method)] *)
Definition getattr (module : pymodule) (method : string) : M callable :=
  match module method with
  | Some func => ret func
  | None =>
      raise (ExcException AttributeError
               ("'module' object has no attribute '" +:+ method +:+ "'"))
  end.

(** The call of the user's function, in the file [out]. *)
Definition call (out module_name method : string) (func : callable)
    (shape : call_shape) : M value :=
  emit (EvCall module_name method shape);;
  run_user out (func shape).

(** Lines 111 to 114: the body of the [try]. *)
Definition invoke_try (out zip_file_dir module_name method : string)
    (arg : value) (input : gmap string value) : M unit :=
  emit (EvImport zip_file_dir module_name);;
  module <- run_user out (import_module E zip_file_dir module_name);;
  func <- getattr module method;;
  result <- (if truthy arg
             then call out module_name method func (CallPos arg input)
             else call out module_name method func (CallKw input));;
  return_dict_set "result" result;;
  return_dict_set "success" (VBool true).

(** [isinstance(e, OSError) and 'Resource' in str(e)] *)
Definition resource_error (cls : exception_class) (str : string) : bool :=
  match cls with OSError => true | _ => false end
  && str_contains "Resource" str.

(** Lines 116 to 122: the [except Exception as e] clause. *)
Definition invoke_except (out : string) (cls : exception_class)
    (str : string) : M unit :=
  _print_trace out cls str;;
  (if resource_error cls str then sys_exit 1 else ret tt);;
  return_dict_set "result" (VStr str);;
  return_dict_set "success" (VBool false).

Definition _invoke_function (execution_id : value)
    (zip_file_dir module_name method : string) (arg : value)
    (input : gmap string value) (rlimit : rlimit_t) : M unit :=
  (* Set resource limit for current sub-process *)
  _set_ulimit;;
  (* Set cpu and memory limits to cgroup by calling cglimit service *)
  let pid := getpid E in
  emit (EvCglimit (cpu rlimit) (memory_size rlimit) pid);;
  let root_resp := cglimit E (cpu rlimit) (memory_size rlimit) pid in
  (if negb (ok root_resp) then
     return_dict_set "result" (VStr (content root_resp));;
     return_dict_set "success" (VBool false);;
     sys_exit 0
   else ret tt);;
  (* sys.path.insert(0, zip_file_dir) is the first argument of
     [import_module] *)
  let out := pystr E execution_id +:+ ".out" in
  open_w out;;
  print out ("Start execution: " +:+ pystr E execution_id);;
  try_finally
    (try_except
       (invoke_try out zip_file_dir module_name method arg input)
       (invoke_except out))
    (print out ("Finished execution: " +:+ pystr E execution_id)).

(** ** The handler, in the order of its banners *)

(** Lines 138 to 157: the request is read and the entry point resolved. *)
Definition resolve_entry (entry : value) : M (string * string) :=
  if truthy entry
  then l <- str_rsplit1 entry;; unpack2 l
  else ret ("main", "main").

Definition get_params (body : value) : M request :=
  let params := py_or body (VDict ∅) in
  input0 <- dict_get params "input";;
  let input := py_or input0 (VDict ∅) in
  execution_id <- dict_getitem params "execution_id";;
  download_url <- dict_get params "download_url";;
  function_id <- dict_get params "function_id";;
  entry <- dict_get params "entry";;
  request_id <- dict_get params "request_id";;
  trust_id <- dict_get params "trust_id";;
  auth_url <- dict_get params "auth_url";;
  username <- dict_get params "username";;
  password <- dict_get params "password";;
  let zip_file_dir := "/var/qinling/packages/" +:+ pystr E function_id in
  cpu <- dict_getitem params "cpu";;
  memory_size <- dict_getitem params "memory_size";;
  let rlimit := Rlimit cpu memory_size in
  mm <- resolve_entry entry;;
  ret (Request input execution_id download_url function_id entry request_id
         trust_id auth_url username password zip_file_dir rlimit
         (fst mm) (snd mm)).

(** Lines 171 to 178: the package is fetched by the sidecar. *)
Definition download_package (body : value) (r : request) : M http_response :=
  token <- dict_get (py_or body (VDict ∅)) "token";;
  emit (EvDownload (download_url r) (function_id r) token);;
  ret (download E (download_url r) (function_id r) token).

(** Lines 187 to 197: the session for the user's function. *)
Definition provide_session (r : request) : M (gmap string value) :=
  let os_session :=
    if truthy (auth_url r)
    then VSession (username r) (password r) (auth_url r) (trust_id r)
    else VNone in
  dict_update (input r) "context" (VDict {[ "os_session" := os_session ]}).

(** Lines 204 to 216: a new process runs the user's function.  Gives the
    start time and the exit code. *)
Definition run_in_process (r : request) (input : gmap string value)
    : M (Z * Z) :=
  manager_dict;;
  return_dict_set "success" (VBool false);;
  start <- time_time;;
  let arg := default VNone (input !! "__function_input") in
  let input := delete "__function_input" input in
  emit (EvSpawn (execution_id r) (zip_file_dir r) (function_module r)
          (function_method r) arg input);;
  exitcode <- start_join
    (_invoke_function (execution_id r) (zip_file_dir r) (function_module r)
       (function_method r) arg input (rlimit r));;
  ret (start, exitcode).

(** Lines 225 to 231: output and success from the exit code and the shared
    dictionary. *)
Definition classify (exitcode : Z) : M (value * value) :=
  if negb (exitcode =? 0) then ret (VStr INVOKE_ERROR, VBool false)
  else
    output <- return_dict_get "result";;
    success <- return_dict_getitem "success";;
    ret (output, success).

(** Lines 223 to 238: the duration, the classified outcome, then the log is
    read and removed and the response built. *)
Definition get_execution_output (r : request) (start exitcode : Z)
    : M response :=
  now <- time_time;;
  let duration := now - start in
  os <- classify exitcode;;
  let out := pystr E (execution_id r) +:+ ".out" in
  logs <- read_file out;;
  os_remove out;;
  ret (_get_responce (fst os) duration logs (snd os) 200).

Definition execute (body : value) : M response :=
  r <- get_params body;;
  resp <- download_package body r;;
  if negb (ok resp)
  then ret (_get_responce (VStr (content resp)) 0 "" (VBool false) 500)
  else
    input <- provide_session r;;
    se <- run_in_process r input;;
    get_execution_output r (fst se) (snd se).

End Runtime.

(** * Auxiliary definitions for the statements *)

(** The request that [get_params] builds from a body with the three
    required keys, once the entry point is resolved to [mm]. *)
Definition request_of (E : environment) (d : gmap string value) (eid c m : value)
    (mm : string * string) : request :=
  let get k := default VNone (d !! k) in
  Request (py_or (get "input") (VDict ∅)) eid (get "download_url")
    (get "function_id") (get "entry") (get "request_id") (get "trust_id")
    (get "auth_url") (get "username") (get "password")
    ("/var/qinling/packages/" +:+ pystr E (get "function_id"))
    (Rlimit c m) (fst mm) (snd mm).

(** The calls the child makes before anything else: the three local
    ceilings, then the cglimit sidecar. *)
Definition limit_events (E : environment) (rl : rlimit_t) : list event :=
  [EvSetrlimit RLIMIT_NOFILE 1024 (snd (getrlimit E RLIMIT_NOFILE));
   EvSetrlimit RLIMIT_NPROC 128 (snd (getrlimit E RLIMIT_NPROC));
   EvSetrlimit RLIMIT_FSIZE 61440 (snd (getrlimit E RLIMIT_FSIZE));
   EvCglimit (cpu rl) (memory_size rl) (getpid E)].

(** The name of the log artifact of an execution. *)
Definition log_file (E : environment) (execution_id : value) : string :=
  pystr E execution_id +:+ ".out".

(** The shape in which [_invoke_function] calls the user's function. *)
Definition shape_of (arg : value) (input : gmap string value) : call_shape :=
  if truthy arg then CallPos arg input else CallKw input.

(** The two marker lines of the log. *)
Definition start_line (E : environment) (execution_id : value) : string :=
  ("Start execution: " +:+ pystr E execution_id) +:+ newline.
Definition finish_line (E : environment) (execution_id : value) : string :=
  ("Finished execution: " +:+ pystr E execution_id) +:+ newline.

(** Lines 110 to 124: the [try] statement of [_invoke_function]. *)
Definition invoke_guarded (E : environment) (execution_id : value)
    (zip_file_dir module_name method : string) (arg : value)
    (input : gmap string value) : M unit :=
  let out := pystr E execution_id +:+ ".out" in
  try_finally
    (try_except
       (invoke_try E out zip_file_dir module_name method arg input)
       (invoke_except E out))
    (print out ("Finished execution: " +:+ pystr E execution_id)).

(** The events of the user phase: the import, and the call when it is
    reached. *)
Definition user_event (module_name method : string) (zip_file_dir : string)
    (shape : call_shape) (ev : event) : Prop :=
  ev = EvImport zip_file_dir module_name ∨ ev = EvCall module_name method shape.

(** The token the handler sends to the download sidecar. *)
Definition token_of (body : value) : value :=
  match py_or body (VDict ∅) with
  | VDict d => default VNone (d !! "token")
  | _ => VNone
  end.

(** The answer of the download sidecar for a request. *)
Definition package_response (E : environment) (body : value) (r : request)
    : http_response :=
  download E (download_url r) (function_id r) (token_of body).

(** The state once the download sidecar has been called. *)
Definition fetched (body : value) (r : request) (s : state) : state :=
  State (fs s) (return_dict s) (clock s)
        (events s ++ [EvDownload (download_url r) (function_id r) (token_of body)]).

(** The session object of a request: built when [auth_url] is true. *)
Definition session_of (r : request) : value :=
  if truthy (auth_url r)
  then VSession (username r) (password r) (auth_url r) (trust_id r)
  else VNone.

(** The input mapping after [input.update]. *)
Definition with_context (r : request) (d : gmap string value)
    : gmap string value :=
  <["context" := VDict {[ "os_session" := session_of r ]}]> d.

(** [input.pop('__function_input', None)] and what is left of [input]. *)
Definition positional (input : gmap string value) : value :=
  default VNone (input !! "__function_input").
Definition keywords (input : gmap string value) : gmap string value :=
  delete "__function_input" input.

(** The state in which the child starts, and its run. *)
Definition spawned (r : request) (input : gmap string value) (s : state)
    : state :=
  State (fs s) (<["success" := VBool false]> ∅) (clock s)
        (events s ++ [EvSpawn (execution_id r) (zip_file_dir r)
                        (function_module r) (function_method r)
                        (positional input) (keywords input)]).

Definition child_run (E : environment) (r : request)
    (input : gmap string value) (s : state) : outcome unit * state :=
  _invoke_function E (execution_id r) (zip_file_dir r) (function_module r)
    (function_method r) (positional input) (keywords input) (rlimit r)
    (spawned r input s).

Definition is_spawn (ev : event) : bool :=
  match ev with EvSpawn _ _ _ _ _ _ => true | _ => false end.

Definition is_user_code (ev : event) : bool :=
  match ev with EvImport _ _ | EvCall _ _ _ => true | _ => false end.

(** ** Concrete requests and environments

    Used to run the handler on examples. *)

Module Example.

Definition pystr (v : value) : string :=
  match v with VStr s => s | _ => "?" end.

Definition traceback (cls : exception_class) (str : string) : string :=
  "Traceback (most recent call last):" +:+ newline +:+ str.

(** A package with one module, [main], whose only function is [main]. *)
Definition package (func : callable) (path name : string) : run pymodule :=
  if String.eqb name "main"
  then Run "" 1 (Val (λ method, if String.eqb method "main" then Some func else None))
  else Run "" 0 (Exc (ExcException ImportError ("No module named " +:+ name))).

(** An environment from the answers of the two sidecars and the user's
    function. *)
Definition env (dl cg : http_response) (func : callable) : environment :=
  Environment pystr (λ _ _ _, dl) (λ _ _ _, cg) 4242 (λ _, (65536, 65536))
              (package func) traceback.

Definition accept : http_response := HttpResponse true "".
Definition reject (why : string) : http_response := HttpResponse false why.

(** User functions. *)
Definition returns (v : value) : callable :=
  λ _, Run ("working" +:+ newline) 5 (Val v).
(** [def main(x, ** kwargs): return x] *)
Definition identity : callable :=
  λ shape, match shape with
           | CallPos x _ => Run "" 1 (Val x)
           | CallKw _ =>
               Run "" 1 (Exc (ExcException TypeError
                                "main() takes exactly 1 argument (0 given)"))
           end.

(** The smallest request body the handler reads to the end. *)
Definition body : gmap string value :=
  <["execution_id" := VStr "e1"]>
    (<["function_id" := VStr "f1"]>
       (<["cpu" := VInt 100]> (<["memory_size" := VInt 33554432]> ∅))).

Definition body_with (k : string) (v : value) : gmap string value :=
  <[k := v]> body.

(** A server with an empty working directory, at time 0. *)
Definition idle : state := State ∅ ∅ 0 [].

End Example.

(** ** Relations between the state before and after a computation *)

(** Every run of [m] takes a state to one related by [R]. *)
Definition preserves {A} (R : relation state) (m : M A) : Prop :=
  ∀ s o s', m s = (o, s') → R s s'.

(** The file [out] stays, the other files are as they were. *)
Definition fs_rel (out : string) (s s' : state) : Prop :=
  (is_Some (fs s !! out) → is_Some (fs s' !! out)) ∧
  ∀ name, name ≠ out → fs s' !! name = fs s !! name.

(** The trace grows by events that satisfy [P]. *)
Definition events_rel (P : event → Prop) (s s' : state) : Prop :=
  ∃ evs, events s' = (events s ++ evs)%list ∧ Forall P evs.

(** The key [k] of the shared dictionary stays. *)
Definition dict_rel (k : string) (s s' : state) : Prop :=
  is_Some (return_dict s !! k) → is_Some (return_dict s' !! k).

(** ** Example requests of the claims *)

Module Sample.




(** A function that returns 42. *)
Definition returning : environment :=
  Example.env Example.accept Example.accept (Example.returns (VInt 42)).


(** The cglimit sidecar refuses. *)
Definition unlimited : environment :=
  Example.env Example.accept (Example.reject "cgroup: no such pid")
    (Example.returns (VInt 42)).

(** [def main(x, ** kwargs): return x] *)
Definition positional_fn : environment :=
  Example.env Example.accept Example.accept Example.identity.

(** The request read from [Example.body]. *)
Definition request (E : environment) : request :=
  request_of E Example.body (VStr "e1") (VInt 100) (VInt 33554432)
    ("main", "main").

Definition rl : rlimit_t := Rlimit (VInt 100) (VInt 33554432).

End Sample.

(** The keyword arguments of a call. *)
Definition kwargs_of (shape : call_shape) : gmap string value :=
  match shape with CallPos _ kw => kw | CallKw kw => kw end.

(** The positional argument of a call, when there is one. *)
Definition positional_of (shape : call_shape) : option value :=
  match shape with CallPos arg _ => Some arg | CallKw _ => None end.

(** * The rest of the file *)

(** [ping]: the liveness probe. *)
Definition ping : string := "pong".

(** ** The user phase as one step

    What the [try] statement of [_invoke_function] does, as functions of
    what the import and the call do. *)

Section UserPhase.

Context (E : environment) (zip_file_dir module_name method : string)
        (arg : value) (input : gmap string value).

(** How the body of the [try] ends. *)
Definition user_end : outcome value :=
  match run_end (import_module E zip_file_dir module_name) with
  | Val module =>
      match module method with
      | Some func => run_end (func (shape_of arg input))
      | None =>
          Exc (ExcException AttributeError
                 ("'module' object has no attribute '" +:+ method +:+ "'"))
      end
  | Exc e => Exc e
  | Kill sig => Kill sig
  end.

(** Whether the function is called at all. *)
Definition user_called : bool :=
  match run_end (import_module E zip_file_dir module_name) with
  | Val module => match module method with Some _ => true | None => false end
  | _ => false
  end.

(** The log after the body of the [try], from the log before it. *)
Definition user_log (before : string) : string :=
  let imported :=
    before +:+ run_stdout (import_module E zip_file_dir module_name) in
  match run_end (import_module E zip_file_dir module_name) with
  | Val module =>
      match module method with
      | Some func => imported +:+ run_stdout (func (shape_of arg input))
      | None => imported
      end
  | _ => imported
  end.

(** The clock after the body of the [try]. *)
Definition user_clock (before : Z) : Z :=
  let imported := before + run_ms (import_module E zip_file_dir module_name) in
  match run_end (import_module E zip_file_dir module_name) with
  | Val module =>
      match module method with
      | Some func => imported + run_ms (func (shape_of arg input))
      | None => imported
      end
  | _ => imported
  end.

(** The trace after the body of the [try]. *)
Definition user_trace (before : list event) : list event :=
  if user_called
  then (before ++ [EvImport zip_file_dir module_name;
                   EvCall module_name method (shape_of arg input)])%list
  else (before ++ [EvImport zip_file_dir module_name])%list.

End UserPhase.

(** How the target ends, from the end of the body of the [try]. *)
Definition guarded_end (u : outcome value) : outcome unit :=
  match u with
  | Val _ => Val tt
  | Exc (ExcException cls str) =>
      if resource_error cls str then Exc (ExcSystemExit 1) else Val tt
  | Exc e => Exc e
  | Kill sig => Kill sig
  end.

(** The shared dictionary after the [try] statement. *)
Definition guarded_dict (u : outcome value) (rd : gmap string value)
    : gmap string value :=
  match u with
  | Val v => <["success" := VBool true]> (<["result" := v]> rd)
  | Exc (ExcException cls str) =>
      if resource_error cls str then rd
      else <["success" := VBool false]> (<["result" := VStr str]> rd)
  | _ => rd
  end.

(** The log after the [try] statement, from the log after its body. *)
Definition guarded_log (E : environment) (execution_id : value)
    (u : outcome value) (text : string) : string :=
  match u with
  | Kill _ => text
  | Exc (ExcException cls str) =>
      (text +:+ (format_exception E cls str +:+ newline))
        +:+ finish_line E execution_id
  | _ => text +:+ finish_line E execution_id
  end.

(** ** More example requests *)

Module More.

(** A working directory in which an artifact of an earlier run is left. *)
Definition stale : state :=
  State {[ "e1.out" := "output of an earlier run" ]} ∅ 0 [].


(** A request for a method the module does not have. *)
Definition no_method : gmap string value :=
  Example.body_with "entry" (VStr "main.nope").

(** A request with input beside the positional argument. *)
Definition with_input : gmap string value :=
  Example.body_with "input"
    (VDict (<["__function_input" := VInt 7]> {[ "name" := VStr "qinling" ]})).

Definition input_of_with_input : gmap string value :=
  <["__function_input" := VInt 7]> {[ "name" := VStr "qinling" ]}.

End More.

(** * Supporting lemmas *)

(** ** Strings and truth *)

Lemma truthy_dict_lookup (d : gmap string value) k v :
  d !! k = Some v → truthy (VDict d) = true.
Proof.
  intros Hk. simpl. destruct (map_to_list d) as [|kv l] eqn:Hl; [|done].
  apply map_to_list_empty_iff in Hl. subst d. by rewrite lookup_empty in Hk.
Qed.

Lemma rcut_none sep s : has_char sep s = false → rcut sep s = None.
Proof.
  induction s as [|c s IH]; simpl; [done|].
  intros [Hc Hs]%orb_false_elim. by rewrite (IH Hs), Hc.
Qed.

Lemma rcut_last sep a b :
  has_char sep b = false → rcut sep (a +:+ String sep b) = Some (a, b).
Proof.
  intros Hb. induction a as [|c a IH]; simpl.
  - by rewrite (rcut_none _ _ Hb), Ascii.eqb_refl.
  - by rewrite IH.
Qed.

Lemma rcut_sound sep s a b :
  rcut sep s = Some (a, b) → s = a +:+ String sep b ∧ has_char sep b = false.
Proof.
  revert a. induction s as [|c s IH]; simpl; [done|]. intros a.
  destruct (rcut sep s) as [[a' b']|] eqn:Hcut.
  - intros [= <- <-]. destruct (IH a' eq_refl) as [-> Hb]. done.
  - destruct (Ascii.eqb c sep) eqn:Hc; [|done]. intros [= <- <-].
    apply Ascii.eqb_eq in Hc as ->. split; [done|].
    clear IH. induction s as [|c' s IH]; simpl in *; [done|].
    destruct (rcut sep s) as [[??]|]; [done|].
    destruct (Ascii.eqb c' sep); [done|]. by rewrite IH.
Qed.

(** ** Reading the request *)

Section Request.

Context (E : environment).

Lemma get_params_dict d s eid c m :
  d !! "execution_id" = Some eid → d !! "cpu" = Some c →
  d !! "memory_size" = Some m →
  get_params E (VDict d) s =
    bind (resolve_entry (default VNone (d !! "entry")))
         (λ mm, ret (request_of E d eid c m mm)) s.
Proof.
  intros He Hc Hm. unfold get_params, py_or.
  rewrite (truthy_dict_lookup _ _ _ He).
  unfold dict_get, dict_getitem, bind, ret. rewrite He, Hc, Hm. done.
Qed.

(** Reading the request touches nothing. *)
Lemma resolve_entry_state v s o s' : resolve_entry v s = (o, s') → s' = s.
Proof.
  unfold resolve_entry, str_rsplit1, unpack2, bind, ret, raise.
  destruct (truthy v); [|by intros [= _ <-]].
  destruct v; try by intros [= _ <-].
  destruct (rsplit1 _ _) as [|a [|b [|??]]]; by intros [= _ <-].
Qed.

Lemma get_params_state body s o s' : get_params E body s = (o, s') → s' = s.
Proof.
  unfold get_params, py_or.
  destruct (truthy body); [destruct body|]; simpl;
    try by (unfold bind, raise; simpl; intros [= _ <-]).
  all: unfold dict_get, dict_getitem, bind, ret, raise.
  all: repeat match goal with
    | |- context [match ?d !! ?k with _ => _ end] => destruct (d !! k)
    end; try by intros [= _ <-].
  all: match goal with
    | |- context [resolve_entry ?v ?s] =>
        destruct (resolve_entry v s) as [[mm|e|sig] s1] eqn:Hr;
        apply resolve_entry_state in Hr as ->
    end; by intros [= _ <-].
Qed.

End Request.

(** ** Computations that preserve a relation *)

Section Preserves.

Context (R : relation state) `{!PreOrder R}.

Lemma preserves_ret {A} (a : A) : preserves R (ret a).
Proof. intros s o s' [= _ <-]. reflexivity. Qed.

Lemma preserves_raise {A} e : preserves R (@raise A e).
Proof. intros s o s' [= _ <-]. reflexivity. Qed.

Lemma preserves_bind {A B} (m : M A) (k : A → M B) :
  preserves R m → (∀ a, preserves R (k a)) → preserves R (bind m k).
Proof.
  intros Hm Hk s o s'. unfold bind.
  destruct (m s) as [[a|e|sig] s1] eqn:Hms; specialize (Hm _ _ _ Hms).
  - intros Hks. etrans; [done|]. by eapply Hk.
  - by intros [= _ <-].
  - by intros [= _ <-].
Qed.

Lemma preserves_try_except {A} (body : M A) handler :
  preserves R body → (∀ cls str, preserves R (handler cls str)) →
  preserves R (try_except body handler).
Proof.
  intros Hb Hh s o s'. unfold try_except.
  destruct (body s) as [[a|[cls str| |]|sig] s1] eqn:Hbs;
    specialize (Hb _ _ _ Hbs); try by intros [= _ <-].
  intros Hhs. etrans; [done|]. by eapply Hh.
Qed.

Lemma preserves_try_finally {A} (body : M A) final :
  preserves R body → preserves R final →
  preserves R (try_finally body final).
Proof.
  intros Hb Hf s o s'. unfold try_finally.
  destruct (body s) as [[a|e|sig] s1] eqn:Hbs; specialize (Hb _ _ _ Hbs);
    try by intros [= _ <-].
  all: destruct (final s1) as [[[]|e'|sig'] s2] eqn:Hfs;
    specialize (Hf _ _ _ Hfs); intros [= _ <-]; by etrans.
Qed.

End Preserves.

#[global] Instance fs_rel_preorder out : PreOrder (fs_rel out).
Proof.
  split.
  - by intros s.
  - intros s1 s2 s3 [H1 H1'] [H2 H2']. split; [auto|].
    intros name Hne. by rewrite H2', H1'.
Qed.

#[global] Instance events_rel_preorder P : PreOrder (events_rel P).
Proof.
  split.
  - intros s. exists []. by rewrite app_nil_r.
  - intros s1 s2 s3 (e1 & H1 & H1') (e2 & H2 & H2'). exists (e1 ++ e2)%list.
    rewrite H2, H1, <- app_assoc. split; [done|]. by apply Forall_app.
Qed.

#[global] Instance dict_rel_preorder k : PreOrder (dict_rel k).
Proof.
  split; [intros s H; exact H|]. intros s1 s2 s3 H1 H2 H. exact (H2 (H1 H)).
Qed.

(** The primitives. *)
Lemma unchanged_fs {A} (m : M A) out :
  (∀ s o s', m s = (o, s') → fs s' = fs s) → preserves (fs_rel out) m.
Proof. intros Hm s o s' Hrun. unfold fs_rel. by rewrite (Hm _ _ _ Hrun). Qed.

Lemma unchanged_events {A} (m : M A) P :
  (∀ s o s', m s = (o, s') → events s' = events s) → preserves (events_rel P) m.
Proof.
  intros Hm s o s' Hrun. exists []. by rewrite (Hm _ _ _ Hrun), app_nil_r.
Qed.

Lemma unchanged_dict {A} (m : M A) k :
  (∀ s o s', m s = (o, s') → return_dict s' = return_dict s) →
  preserves (dict_rel k) m.
Proof. intros Hm s o s' Hrun. unfold dict_rel. by rewrite (Hm _ _ _ Hrun). Qed.

Lemma write_fs out text : preserves (fs_rel out) (write out text).
Proof.
  intros s o s' [= _ <-]. split; simpl; [by rewrite lookup_insert_eq|].
  intros name Hne. by rewrite lookup_insert_ne.
Qed.

Lemma write_events out text P : preserves (events_rel P) (write out text).
Proof. apply unchanged_events. by intros s o s' [= _ <-]. Qed.

Lemma write_dict out text k : preserves (dict_rel k) (write out text).
Proof. apply unchanged_dict. by intros s o s' [= _ <-]. Qed.

Lemma run_user_fs {A} out (r : run A) : preserves (fs_rel out) (run_user out r).
Proof.
  intros s o s' [= _ <-]. split; simpl; [by rewrite lookup_insert_eq|].
  intros name Hne. by rewrite lookup_insert_ne.
Qed.

Lemma run_user_events {A} out (r : run A) P :
  preserves (events_rel P) (run_user out r).
Proof. apply unchanged_events. by intros s o s' [= _ <-]. Qed.

Lemma run_user_dict {A} out (r : run A) k :
  preserves (dict_rel k) (run_user out r).
Proof. apply unchanged_dict. by intros s o s' [= _ <-]. Qed.

Lemma return_dict_set_fs key x out :
  preserves (fs_rel out) (return_dict_set key x).
Proof. apply unchanged_fs. by intros s o s' [= _ <-]. Qed.

Lemma return_dict_set_events key x P :
  preserves (events_rel P) (return_dict_set key x).
Proof. apply unchanged_events. by intros s o s' [= _ <-]. Qed.

Lemma return_dict_set_dict key x k :
  preserves (dict_rel k) (return_dict_set key x).
Proof.
  intros s o s' [= _ <-] Hk. simpl. rewrite lookup_insert. case_decide; eauto.
Qed.

Lemma emit_fs ev out : preserves (fs_rel out) (emit ev).
Proof. apply unchanged_fs. by intros s o s' [= _ <-]. Qed.

Lemma emit_events ev (P : event → Prop) :
  P ev → preserves (events_rel P) (emit ev).
Proof.
  intros HP s o s' [= _ <-]. exists [ev]. split; [done|].
  by apply Forall_singleton.
Qed.

Lemma emit_dict ev k : preserves (dict_rel k) (emit ev).
Proof. apply unchanged_dict. by intros s o s' [= _ <-]. Qed.

Ltac preserve :=
  repeat first
    [ apply preserves_try_finally; [apply _| |]
    | apply preserves_try_except; [apply _| |intros ??]
    | apply preserves_bind; [apply _| |intros ?]
    | apply preserves_ret; apply _
    | apply preserves_raise; apply _
    | apply write_fs | apply write_events | apply write_dict
    | apply run_user_fs | apply run_user_events | apply run_user_dict
    | apply return_dict_set_fs | apply return_dict_set_events
    | apply return_dict_set_dict
    | apply emit_fs | apply emit_events | apply emit_dict
    | match goal with
      | |- preserves _ (match ?x with _ => _ end) => destruct x
      end ].

(** ** The child process *)

Ltac run_child :=
  unfold _invoke_function, invoke_try, invoke_except, _set_ulimit,
    _print_trace, call, getattr, try_finally, try_except, run_user, print,
    write, open_w, return_dict_set, sys_exit, raise, emit, bind, ret,
    log_file, shape_of in *;
  simpl in *.

Section Child.

Context (E : environment) (eid : value) (dir mn meth : string)
        (arg : value) (input : gmap string value) (rl : rlimit_t).

Lemma invoke_limiter_failure s :
  ok (cglimit E (cpu rl) (memory_size rl) (getpid E)) = false →
  _invoke_function E eid dir mn meth arg input rl s =
    (Exc (ExcSystemExit 0),
     State (fs s)
           (<["success" := VBool false]>
              (<["result" := VStr (content (cglimit E (cpu rl) (memory_size rl) (getpid E)))]>
                 (return_dict s)))
           (clock s) (events s ++ limit_events E rl)).
Proof.
  intros Hok. run_child. rewrite Hok; simpl.
  unfold limit_events. by rewrite <- !app_assoc.
Qed.

Lemma invoke_limiter_ok s :
  ok (cglimit E (cpu rl) (memory_size rl) (getpid E)) = true →
  _invoke_function E eid dir mn meth arg input rl s =
    invoke_guarded E eid dir mn meth arg input
      (State (<[log_file E eid := start_line E eid]> (fs s)) (return_dict s)
             (clock s) (events s ++ limit_events E rl)).
Proof.
  intros Hok.
  unfold _invoke_function, invoke_guarded, _set_ulimit, open_w, print, write,
    emit, bind, ret, log_file, start_line, limit_events; simpl.
  rewrite Hok; simpl.
  by rewrite lookup_insert_eq, insert_insert_eq, <- !app_assoc.
Qed.


(** What every run of the [try] statement keeps: the log artifact and the
    other files, a trace that grows by the import and the call only, and the
    keys of the shared dictionary. *)
Lemma guarded_rels k :
  preserves (fs_rel (log_file E eid)) (invoke_guarded E eid dir mn meth arg input) ∧
  preserves (events_rel (user_event mn meth dir (shape_of arg input)))
            (invoke_guarded E eid dir mn meth arg input) ∧
  preserves (dict_rel k) (invoke_guarded E eid dir mn meth arg input).
Proof.
  unfold invoke_guarded, invoke_try, invoke_except, _print_trace, call, getattr,
    print, sys_exit, log_file, shape_of, user_event.
  split; [|split]; preserve; auto.
Qed.

Lemma guarded_fs st o st' :
  invoke_guarded E eid dir mn meth arg input st = (o, st') →
  is_Some (fs st !! log_file E eid) →
  is_Some (fs st' !! log_file E eid) ∧
  ∀ name, name ≠ log_file E eid → fs st' !! name = fs st !! name.
Proof.
  intros Hrun Hlog. destruct (proj1 (guarded_rels "") _ _ _ Hrun). auto.
Qed.

Lemma guarded_events st o st' :
  invoke_guarded E eid dir mn meth arg input st = (o, st') →
  ∃ evs, events st' = (events st ++ evs)%list ∧
         Forall (user_event mn meth dir (shape_of arg input)) evs.
Proof. intros Hrun. exact (proj1 (proj2 (guarded_rels "")) _ _ _ Hrun). Qed.

(** The child only ever adds entries to the shared dictionary. *)
Lemma guarded_dict_keeps st o st' k :
  invoke_guarded E eid dir mn meth arg input st = (o, st') →
  is_Some (return_dict st !! k) → is_Some (return_dict st' !! k).
Proof. intros Hrun. exact (proj2 (proj2 (guarded_rels k)) _ _ _ Hrun). Qed.

Section Loaded.

(** The module is found and has the method. *)
Context (module : pymodule) (func : callable).
Hypothesis Himport : run_end (import_module E dir mn) = Val module.
Hypothesis Hattr : module meth = Some func.




Lemma guarded_killed st sig :
  run_end (func (shape_of arg input)) = Kill sig →
  ∃ st', invoke_guarded E eid dir mn meth arg input st = (Kill sig, st') ∧
         return_dict st' = return_dict st.
Proof using Himport Hattr.
  unfold invoke_guarded. intros Hend. run_child.
  rewrite Himport, Hattr.
  destruct (truthy arg); simpl; rewrite Hend; simpl;
    eexists; split; reflexivity.
Qed.

End Loaded.

End Child.

(** ** The handler *)

Section Handler.

Context (E : environment).

Lemma run_in_process_eq r input s :
  run_in_process E r input s =
    (Val (clock s, exitcode_of (child_run E r input s).1),
     (child_run E r input s).2).
Proof.
  unfold run_in_process, child_run, spawned, positional, keywords, start_join,
    manager_dict, return_dict_set, time_time, emit, bind, ret; simpl.
  by destruct (_invoke_function _ _ _ _ _ _ _ _ _).
Qed.

Lemma get_execution_output_found r start ec s text v :
  fs s !! log_file E (execution_id r) = Some text →
  return_dict s !! "success" = Some v →
  get_execution_output E r start ec s =
    (Val (_get_responce
            (if ec =? 0 then default VNone (return_dict s !! "result")
             else VStr INVOKE_ERROR)
            (clock s - start) text
            (if ec =? 0 then v else VBool false) 200),
     State (delete (log_file E (execution_id r)) (fs s)) (return_dict s)
           (clock s) (events s)).
Proof.
  intros Hlog Hsucc.
  unfold get_execution_output, classify, return_dict_get, return_dict_getitem,
    read_file, os_remove, time_time, bind, ret, log_file in *.
  destruct (ec =? 0); simpl; rewrite ?Hsucc; simpl; rewrite Hlog; simpl;
    rewrite ?Hlog; done.
Qed.

Lemma get_execution_output_missing r start ec s :
  fs s !! log_file E (execution_id r) = None →
  is_Some (return_dict s !! "success") →
  get_execution_output E r start ec s =
    (Exc (ExcException IOError (log_file E (execution_id r))), s).
Proof.
  intros Hlog [v Hsucc].
  unfold get_execution_output, classify, return_dict_get, return_dict_getitem,
    read_file, os_remove, time_time, bind, ret, log_file in *.
  destruct (ec =? 0); simpl; rewrite ?Hsucc; simpl; rewrite Hlog; simpl;
    rewrite ?Hlog; done.
Qed.

Lemma get_execution_output_status r start ec s resp s' :
  get_execution_output E r start ec s = (Val resp, s') → status resp = 200.
Proof.
  unfold get_execution_output, classify, return_dict_get, return_dict_getitem,
    read_file, os_remove, time_time, bind, ret.
  intros Hrun. repeat case_match; by simplify_eq.
Qed.

Lemma get_params_body body s r s' :
  get_params E body s = (Val r, s') → ∃ d, py_or body (VDict ∅) = VDict d.
Proof.
  unfold get_params. destruct (py_or body (VDict ∅)); eauto;
    unfold bind, dict_get, raise; simpl; by intros [=].
Qed.

Lemma download_package_eq body r s :
  (∃ d, py_or body (VDict ∅) = VDict d) →
  download_package E body r s = (Val (package_response E body r), fetched body r s).
Proof.
  intros [d Hd]. unfold download_package, package_response, fetched, token_of.
  by rewrite Hd.
Qed.

Lemma execute_fetch_failed body s r :
  get_params E body s = (Val r, s) →
  ok (package_response E body r) = false →
  execute E body s =
    (Val (_get_responce (VStr (content (package_response E body r))) 0 ""
            (VBool false) 500),
     fetched body r s).
Proof.
  intros Hp Hok. unfold execute, bind at 1. rewrite Hp.
  unfold bind. rewrite (download_package_eq _ _ _ (get_params_body _ _ _ _ Hp)).
  by rewrite Hok.
Qed.

Lemma execute_spawned body s r d :
  get_params E body s = (Val r, s) →
  ok (package_response E body r) = true →
  input r = VDict d →
  execute E body s =
    get_execution_output E r (clock s)
      (exitcode_of (child_run E r (with_context r d) (fetched body r s)).1)
      (child_run E r (with_context r d) (fetched body r s)).2.
Proof.
  intros Hp Hok Hin. unfold execute, bind at 1. rewrite Hp.
  unfold bind at 1. rewrite (download_package_eq _ _ _ (get_params_body _ _ _ _ Hp)).
  rewrite Hok; simpl. unfold bind at 1, provide_session, dict_update.
  rewrite Hin. unfold ret at 1. unfold bind. rewrite run_in_process_eq. done.
Qed.

(** The trace of the sandbox: the spawn, the ceilings and the sidecar, then
    the user phase when the limiter agreed. *)
Lemma child_run_events r input s :
  ∃ evs,
    events (child_run E r input s).2 =
      (events s ++
       EvSpawn (execution_id r) (zip_file_dir r) (function_module r)
         (function_method r) (positional input) (keywords input)
       :: limit_events E (rlimit r) ++ evs)%list ∧
    Forall (user_event (function_module r) (function_method r) (zip_file_dir r)
              (shape_of (positional input) (keywords input))) evs ∧
    (ok (cglimit E (cpu (rlimit r)) (memory_size (rlimit r)) (getpid E)) = false →
     evs = []).
Proof.
  unfold child_run.
  destruct (ok (cglimit E (cpu (rlimit r)) (memory_size (rlimit r)) (getpid E)))
    eqn:Hok.
  - rewrite invoke_limiter_ok by done.
    destruct (invoke_guarded _ _ _ _ _ _ _ _) as [o st'] eqn:Hrun.
    apply guarded_events in Hrun as (evs & Hev & Hevs). simpl in *.
    exists evs. by rewrite Hev, <- !app_assoc.
  - rewrite invoke_limiter_failure by done. simpl.
    exists []. by rewrite ?app_nil_r, <- ?app_assoc.
Qed.

(** After a child that the limiter let through, the log artifact exists,
    the other files are untouched and the shared dictionary still has its
    success flag. *)
Lemma child_run_ok_state r input s :
  ok (cglimit E (cpu (rlimit r)) (memory_size (rlimit r)) (getpid E)) = true →
  is_Some (fs (child_run E r input s).2 !! log_file E (execution_id r)) ∧
  (∀ name, name ≠ log_file E (execution_id r) →
           fs (child_run E r input s).2 !! name = fs s !! name) ∧
  is_Some (return_dict (child_run E r input s).2 !! "success").
Proof.
  intros Hok. unfold child_run. rewrite invoke_limiter_ok by done.
  destruct (invoke_guarded _ _ _ _ _ _ _ _) as [o st'] eqn:Hrun. simpl.
  destruct (guarded_fs _ _ _ _ _ _ _ _ _ _ Hrun) as [Hlog Hother].
  { simpl. rewrite lookup_insert_eq. eauto. }
  split; [done|]. split.
  - intros name Hne. rewrite (Hother name Hne). simpl.
    by rewrite lookup_insert_ne.
  - eapply guarded_dict_keeps; [done|]. simpl. rewrite lookup_insert_eq. eauto.
Qed.

(** After a child that the limiter refused, no file is touched and the
    dictionary holds the sidecar's content. *)
Lemma child_run_refused r input s :
  ok (cglimit E (cpu (rlimit r)) (memory_size (rlimit r)) (getpid E)) = false →
  child_run E r input s =
    (Exc (ExcSystemExit 0),
     State (fs s)
       (<["success" := VBool false]>
          (<["result" := VStr (content (cglimit E (cpu (rlimit r))
                                          (memory_size (rlimit r)) (getpid E)))]>
             (<["success" := VBool false]> ∅)))
       (clock s)
       (events s ++
        EvSpawn (execution_id r) (zip_file_dir r) (function_module r)
          (function_method r) (positional input) (keywords input)
        :: limit_events E (rlimit r))).
Proof.
  intros Hok. unfold child_run. rewrite invoke_limiter_failure by done.
  simpl. by rewrite <- app_assoc.
Qed.

Lemma get_execution_output_events r start ec s :
  events (get_execution_output E r start ec s).2 = events s.
Proof.
  unfold get_execution_output, classify, return_dict_get, return_dict_getitem,
    read_file, os_remove, time_time, bind, ret.
  repeat case_match; by simplify_eq.
Qed.

(** What a response of [get_execution_output] says about the state it was
    built from. *)
Lemma get_execution_output_inv r start ec s resp s' :
  get_execution_output E r start ec s = (Val resp, s') →
  fs s !! log_file E (execution_id r) = Some (logs resp) ∧
  status resp = 200 ∧
  duration resp = clock s - start ∧
  s' = State (delete (log_file E (execution_id r)) (fs s)) (return_dict s)
             (clock s) (events s) ∧
  (if ec =? 0
   then return_dict s !! "success" = Some (success resp) ∧
        output resp = default VNone (return_dict s !! "result")
   else success resp = VBool false ∧ output resp = VStr INVOKE_ERROR).
Proof.
  unfold get_execution_output, classify, return_dict_get, return_dict_getitem,
    read_file, os_remove, time_time, bind, ret, log_file.
  intros Hrun. destruct (ec =? 0); simpl in *.
  - destruct (return_dict s !! "success") as [v|] eqn:Hv; [|done].
    destruct (fs s !! _) as [text|] eqn:Hlog; [|done].
    simpl in Hrun. rewrite Hlog in Hrun. by simplify_eq.
  - destruct (fs s !! _) as [text|] eqn:Hlog; [|done].
    simpl in Hrun. rewrite Hlog in Hrun. by simplify_eq.
Qed.



(** The trace of a request that reaches the sandbox. *)
Lemma execute_trace body s r d :
  get_params E body s = (Val r, s) →
  ok (package_response E body r) = true →
  input r = VDict d →
  ∃ evs,
    events (execute E body s).2 =
      (events s ++
       EvDownload (download_url r) (function_id r) (token_of body)
       :: EvSpawn (execution_id r) (zip_file_dir r) (function_module r)
            (function_method r) (positional (with_context r d))
            (keywords (with_context r d))
       :: limit_events E (rlimit r) ++ evs)%list ∧
    Forall (user_event (function_module r) (function_method r) (zip_file_dir r)
              (shape_of (positional (with_context r d))
                        (keywords (with_context r d)))) evs ∧
    (ok (cglimit E (cpu (rlimit r)) (memory_size (rlimit r)) (getpid E)) = false →
     evs = []).
Proof.
  intros Hp Hok Hin. rewrite (execute_spawned body s r d Hp Hok Hin).
  rewrite get_execution_output_events.
  destruct (child_run_events r (with_context r d) (fetched body r s))
    as (evs & Hev & Huser & Hnone).
  exists evs. rewrite Hev. simpl. by rewrite <- app_assoc.
Qed.

(** The fields of a request read from a dictionary. *)
Lemma get_params_fields dd s r s' :
  get_params E (VDict dd) s = (Val r, s') →
  input r = py_or (default VNone (dd !! "input")) (VDict ∅) ∧
  auth_url r = default VNone (dd !! "auth_url") ∧
  username r = default VNone (dd !! "username") ∧
  password r = default VNone (dd !! "password") ∧
  trust_id r = default VNone (dd !! "trust_id").
Proof.
  unfold get_params, py_or.
  destruct (truthy (VDict dd)); simpl;
    unfold dict_get, dict_getitem, bind, ret, raise.
  - repeat match goal with
      | |- context [match ?d !! ?k with _ => _ end] =>
          is_var d; destruct (d !! k) eqn:?
      end; try done.
    all: destruct (resolve_entry _ s) as [[mm|e|sig] s1]; [|done..].
    all: intros [= <- _]; simpl; done.
  - by rewrite lookup_empty.
Qed.

(** A truthy input that is no dictionary has no [update]. *)
Lemma execute_input_not_dict body s r :
  get_params E body s = (Val r, s) →
  ok (package_response E body r) = true →
  (∀ d, input r ≠ VDict d) →
  execute E body s =
    (Exc (ExcException AttributeError "update"), fetched body r s).
Proof.
  intros Hp Hok Hin. unfold execute, bind at 1. rewrite Hp.
  unfold bind at 1. rewrite (download_package_eq _ _ _ (get_params_body _ _ _ _ Hp)).
  rewrite Hok; simpl. unfold bind at 1, provide_session, dict_update.
  destruct (input r); try done. by destruct (Hin d).
Qed.

End Handler.

(** * The properties of the specification *)

(** C7.  Entry-point resolution.  For a request that omits [entry] the
    function resolved is module "main", method "main".  For a request whose
    [entry] is a dotted string the string is cut at its last dot: with
    [entry = md.fn], where [fn] has no dot, the module is [md] and the method
    is [fn]; so "mod.fn" gives module "mod", method "fn".  Conversely,
    whatever non-empty string is resolved, the method has no dot and module,
    dot and method make up the entry.  The child is started for exactly this
    module and method. *)
Theorem entry_resolution (E : environment) (d : gmap string value)
    (s : state) (eid c m : value) :
  d !! "execution_id" = Some eid → d !! "cpu" = Some c →
  d !! "memory_size" = Some m →
  (d !! "entry" = None →
     ∃ r, get_params E (VDict d) s = (Val r, s) ∧
          function_module r = "main" ∧ function_method r = "main")
  ∧ (∀ md fn, d !! "entry" = Some (VStr (md +:+ "." +:+ fn)) →
       has_char "." fn = false →
       ∃ r, get_params E (VDict d) s = (Val r, s) ∧
            function_module r = md ∧ function_method r = fn)
  ∧ (d !! "entry" = Some (VStr "mod.fn") →
       ∃ r, get_params E (VDict d) s = (Val r, s) ∧
            function_module r = "mod" ∧ function_method r = "fn")
  ∧ (∀ e r, d !! "entry" = Some (VStr e) → e ≠ "" →
       get_params E (VDict d) s = (Val r, s) →
       e = function_module r +:+ "." +:+ function_method r ∧
       has_char "." (function_method r) = false)
  ∧ (∀ r input,
       get_params E (VDict d) s = (Val r, s) →
       ∃ arg kw rest,
         events (run_in_process E r input s).2 =
           (events s ++ EvSpawn eid (zip_file_dir r) (function_module r)
                          (function_method r) arg kw :: rest)%list).
Proof.
  intros He Hc Hm.
  assert (Hdot : ∀ md fn, d !! "entry" = Some (VStr (md +:+ "." +:+ fn)) →
       has_char "." fn = false →
       ∃ r, get_params E (VDict d) s = (Val r, s) ∧
            function_module r = md ∧ function_method r = fn).
  { intros md fn Hentry Hfn. rewrite (get_params_dict E d s eid c m He Hc Hm).
    rewrite Hentry; simpl.
    assert (truthy (VStr (md +:+ "." +:+ fn)) = true) as Ht
      by (by destruct md).
    unfold resolve_entry, bind. rewrite Ht. unfold str_rsplit1, ret, rsplit1.
    change (md +:+ "." +:+ fn) with (md +:+ String "." fn).
    rewrite (rcut_last _ _ _ Hfn); simpl. eauto. }
  split; [|split; [done|split; [|split]]].
  - intros Hentry. rewrite (get_params_dict E d s eid c m He Hc Hm).
    rewrite Hentry; simpl. eauto.
  - intros Hentry. by apply (Hdot "mod" "fn").
  - intros e r Hentry Hne. rewrite (get_params_dict E d s eid c m He Hc Hm).
    rewrite Hentry; simpl.
    assert (truthy (VStr e) = true) as Ht by (by destruct e).
    unfold resolve_entry, bind. rewrite Ht.
    unfold str_rsplit1, unpack2, ret, raise, rsplit1.
    destruct (rcut "." e) as [[a b]|] eqn:Hcut; [|done].
    intros [= <-]; simpl. by apply rcut_sound.
  - intros r input Hp. rewrite (get_params_dict E d s eid c m He Hc Hm) in Hp.
    unfold bind in Hp.
    destruct (resolve_entry _ s) as [[mm|e|sig] s1]; [|done..].
    injection Hp as <- <-. rewrite run_in_process_eq; simpl.
    destruct (child_run_events E (request_of E d eid c m mm) input s1)
      as (evs & Hev & _).
    rewrite Hev; simpl. eauto.
Qed.

(** A request with the entry "mod.fn". *)
Lemma entry_resolution_witness :
  ∃ r, get_params (Example.env Example.accept Example.accept (Example.returns VNone))
         (VDict (Example.body_with "entry" (VStr "mod.fn"))) Example.idle
       = (Val r, Example.idle) ∧
       function_module r = "mod" ∧ function_method r = "fn".
Proof.
  apply (entry_resolution _ (Example.body_with "entry" (VStr "mod.fn"))
           Example.idle (VStr "e1") (VInt 100) (VInt 33554432));
    reflexivity.
Defined.

(** C10.  A request whose [entry] is a non-empty string without a dot makes
    the handler raise: [rsplit] gives one component, which does not unpack
    into module and method.  Nothing has happened by then: no sidecar is
    called, no process is spawned and no response is built.  With the three
    required keys present the exception is the ValueError of the unpacking. *)
Theorem entry_without_dot_raises (E : environment) (d : gmap string value)
    (s : state) (e : string) :
  d !! "entry" = Some (VStr e) → e ≠ "" → has_char "." e = false →
  ∃ ex, execute E (VDict d) s = (Exc ex, s) ∧
        (is_Some (d !! "execution_id") → is_Some (d !! "cpu") →
         is_Some (d !! "memory_size") →
         ex = ExcException ValueError "unpack").
Proof.
  intros Hentry Hne Hdot.
  assert (Hres : resolve_entry (VStr e) s =
                   (Exc (ExcException ValueError "unpack"), s)).
  { unfold resolve_entry, bind, str_rsplit1, ret, rsplit1; simpl.
    destruct e as [|ch e]; [done|]. by rewrite (rcut_none _ _ Hdot). }
  unfold execute, bind at 1, get_params, py_or.
  rewrite (truthy_dict_lookup _ _ _ Hentry).
  unfold dict_get, dict_getitem, bind, ret, raise. rewrite Hentry; simpl.
  destruct (d !! "execution_id") as [eid|]; [|eexists; split; [done|]; by intros []].
  destruct (d !! "cpu") as [c|]; [|eexists; split; [done|]; by intros _ []].
  destruct (d !! "memory_size") as [m|]; [|eexists; split; [done|]; by intros _ _ []].
  rewrite Hres. eauto.
Qed.

(** A request with the entry "main": no dot. *)
Lemma entry_without_dot_raises_witness :
  ∃ ex, execute (Example.env Example.accept Example.accept (Example.returns VNone))
          (VDict (Example.body_with "entry" (VStr "main"))) Example.idle
        = (Exc ex, Example.idle) ∧
        (is_Some (Example.body_with "entry" (VStr "main") !! "execution_id") →
         is_Some (Example.body_with "entry" (VStr "main") !! "cpu") →
         is_Some (Example.body_with "entry" (VStr "main") !! "memory_size") →
         ex = ExcException ValueError "unpack").
Proof.
  apply (entry_without_dot_raises _ (Example.body_with "entry" (VStr "main"))
           Example.idle "main"); [reflexivity | discriminate | reflexivity].
Defined.

(** C3.  When the download sidecar reports failure, the handler answers with
    success false, duration 0, empty logs, the sidecar's raw content as
    output and status 500; the only thing it has done is the call of the
    sidecar, so no process was spawned and no file touched.  Every other
    response of the handler has status 200, whatever its success flag. *)
Theorem download_failure_response (E : environment) (body : value)
    (s : state) (r : request) :
  get_params E body s = (Val r, s) →
  (ok (package_response E body r) = false →
   ∃ s', execute E body s =
           (Val (Response (VStr (content (package_response E body r))) 0 ""
                          (VBool false) 500 "application/json"), s') ∧
         events s' =
           (events s ++ [EvDownload (download_url r) (function_id r) (token_of body)])%list ∧
         (∀ ev, ev ∈ events s' → is_spawn ev = true → ev ∈ events s) ∧
         fs s' = fs s)
  ∧ (∀ resp s', execute E body s = (Val resp, s') →
       status resp = if ok (package_response E body r) then 200 else 500).
Proof.
  intros Hp. split.
  - intros Hok. rewrite (execute_fetch_failed E body s r Hp Hok).
    eexists; split; [reflexivity|]. simpl. split; [done|]. split; [|done].
    intros ev [Hev|Hev]%elem_of_app; [done|].
    apply list_elem_of_singleton in Hev as ->. done.
  - intros resp s' Hrun.
    destruct (ok (package_response E body r)) eqn:Hok.
    + destruct (input r) as [| | | | |d|] eqn:Hin;
        try (rewrite (execute_input_not_dict E body s r Hp Hok) in Hrun;
             [done | by rewrite Hin]).
      rewrite (execute_spawned E body s r d Hp Hok Hin) in Hrun.
      by apply get_execution_output_status in Hrun.
    + rewrite (execute_fetch_failed E body s r Hp Hok) in Hrun.
      by simplify_eq.
Qed.

(** A download sidecar that answers "no such package". *)
Lemma download_failure_response_witness :
  ∃ s',
    execute (Example.env (Example.reject "no such package") Example.accept
                         (Example.returns VNone))
            (VDict Example.body) Example.idle =
      (Val (Response (VStr "no such package") 0 "" (VBool false) 500
                     "application/json"), s') ∧
    events s' = [EvDownload VNone (VStr "f1") VNone] ∧
    (∀ ev, ev ∈ events s' → is_spawn ev = true → ev ∈ events Example.idle) ∧
    fs s' = ∅.
Proof.
  destruct (download_failure_response
              (Example.env (Example.reject "no such package") Example.accept
                           (Example.returns VNone))
              (VDict Example.body) Example.idle
              (request_of (Example.env (Example.reject "no such package")
                             Example.accept (Example.returns VNone))
                 Example.body (VStr "e1") (VInt 100) (VInt 33554432)
                 ("main", "main"))
              eq_refl) as [Hfail _].
  destruct (Hfail eq_refl) as (s' & Hrun & Hev & Hsp & Hfs).
  exists s'. repeat split; [exact Hrun | exact Hev | exact Hsp | exact Hfs].
Defined.








(** C2, as the code has it.  When the cglimit sidecar reports failure the
    child never reaches the user's code (no import, no call) and touches no
    file; it records success false and the sidecar's content as the result
    and leaves with [sys.exit(0)], so its exit code is 0.  The classifier
    therefore yields success false with the sidecar's content as output, not
    the fixed message. *)
Theorem limiter_failure_reports_payload (E : environment) (r : request)
    (input : gmap string value) (s : state) :
  ok (cglimit E (cpu (rlimit r)) (memory_size (rlimit r)) (getpid E)) = false →
  let run := child_run E r input s in
  let payload :=
    VStr (content (cglimit E (cpu (rlimit r)) (memory_size (rlimit r)) (getpid E))) in
  run.1 = Exc (ExcSystemExit 0) ∧
  exitcode_of run.1 = 0 ∧
  (∀ ev, ev ∈ events run.2 → is_user_code ev = true → ev ∈ events s) ∧
  fs run.2 = fs s ∧
  return_dict run.2 !! "success" = Some (VBool false) ∧
  return_dict run.2 !! "result" = Some payload ∧
  classify (exitcode_of run.1) run.2 = (Val (payload, VBool false), run.2).
Proof.
  intros Hok run payload. unfold run.
  rewrite (child_run_refused E r input s Hok). simpl.
  split; [done|]. split; [done|]. split.
  { intros ev [Hev|Hev]%elem_of_app Huser; [done|].
    unfold limit_events in Hev.
    repeat (apply elem_of_cons in Hev as [->|Hev]; [done|]).
    by apply elem_of_nil in Hev. }
  split; [done|]. split; [by rewrite lookup_insert_eq|].
  split; [by rewrite lookup_insert_ne, lookup_insert_eq|].
  unfold classify, return_dict_get, return_dict_getitem, bind, ret; simpl.
  by rewrite lookup_insert_eq, lookup_insert_ne, lookup_insert_eq.
Qed.

(** A cglimit sidecar that answers "cgroup: no such pid". *)
Lemma limiter_failure_reports_payload_witness :
  exitcode_of (child_run Sample.unlimited (Sample.request Sample.unlimited) ∅
                 Example.idle).1 = 0 ∧
  return_dict (child_run Sample.unlimited (Sample.request Sample.unlimited) ∅
                 Example.idle).2 !! "result" = Some (VStr "cgroup: no such pid").
Proof.
  destruct (limiter_failure_reports_payload Sample.unlimited
              (Sample.request Sample.unlimited) ∅ Example.idle eq_refl)
    as (_ & Hec & _ & _ & _ & Hres & _).
  split; [exact Hec | exact Hres].
Defined.

(** C2 as stated fails: with a refusing sidecar the child does not exit with
    a non-zero status, and the classified output is the sidecar's content,
    not the fixed message. *)
Lemma limiter_failure_not_resource_abuse :
  ¬ (exitcode_of (child_run Sample.unlimited (Sample.request Sample.unlimited) ∅
                    Example.idle).1 ≠ 0 ∧
     (classify
        (exitcode_of (child_run Sample.unlimited (Sample.request Sample.unlimited)
                        ∅ Example.idle).1)
        (child_run Sample.unlimited (Sample.request Sample.unlimited) ∅
           Example.idle).2).1 = Val (VStr INVOKE_ERROR, VBool false)).
Proof. intros [Hec _]. by apply Hec. Qed.

(** ** The log artifact *)

(** When the limiter has agreed, the handler answers; the logs of the
    response are what the artifact held when the child was joined, whether
    the function returned, raised or was killed; the artifact is gone when
    the handler returns and no other file has changed. *)
Lemma log_artifact_removed (E : environment) (body : value) (s : state)
    (r : request) (d : gmap string value) :
  get_params E body s = (Val r, s) →
  ok (package_response E body r) = true →
  input r = VDict d →
  ok (cglimit E (cpu (rlimit r)) (memory_size (rlimit r)) (getpid E)) = true →
  ∃ resp s',
    execute E body s = (Val resp, s') ∧
    fs (child_run E r (with_context r d) (fetched body r s)).2
      !! log_file E (execution_id r) = Some (logs resp) ∧
    fs s' !! log_file E (execution_id r) = None ∧
    ∀ name, name ≠ log_file E (execution_id r) → fs s' !! name = fs s !! name.
Proof.
  intros Hp Hfetch Hin Hok.
  destruct (child_run_ok_state E r (with_context r d) (fetched body r s) Hok)
    as ([text Hlog] & Hother & [v Hsucc]).
  rewrite (execute_spawned E body s r d Hp Hfetch Hin).
  rewrite (get_execution_output_found E r _ _ _ text v Hlog Hsucc).
  eexists _, _. split; [reflexivity|]. simpl.
  split; [done|]. split; [by rewrite lookup_delete_eq|].
  intros name Hne. rewrite lookup_delete_ne by done. by rewrite Hother.
Qed.

(** C6 at the failing input.  When the cglimit sidecar refuses, the child
    leaves before it has opened the log artifact; unless a file of that name
    was already there, the handler then fails with IOError on reading it: no
    response is produced, although the child has recorded success false and
    the sidecar's content for it. *)
Theorem limiter_failure_loses_response (E : environment) (body : value)
    (s : state) (r : request) (d : gmap string value) :
  get_params E body s = (Val r, s) →
  ok (package_response E body r) = true →
  input r = VDict d →
  ok (cglimit E (cpu (rlimit r)) (memory_size (rlimit r)) (getpid E)) = false →
  fs s !! log_file E (execution_id r) = None →
  ∃ s',
    execute E body s =
      (Exc (ExcException IOError (log_file E (execution_id r))), s') ∧
    return_dict s' !! "success" = Some (VBool false) ∧
    return_dict s' !! "result" =
      Some (VStr (content (cglimit E (cpu (rlimit r)) (memory_size (rlimit r))
                             (getpid E)))) ∧
    fs s' = fs s.
Proof.
  intros Hp Hfetch Hin Hok Hlog.
  rewrite (execute_spawned E body s r d Hp Hfetch Hin).
  rewrite (child_run_refused E r (with_context r d) (fetched body r s) Hok).
  simpl. rewrite get_execution_output_missing.
  - eexists. split; [reflexivity|]. simpl.
    split; [by rewrite lookup_insert_eq|].
    split; [by rewrite lookup_insert_ne, lookup_insert_eq|]. done.
  - done.
  - simpl. rewrite lookup_insert_eq. eauto.
Qed.

(** The same sidecar, seen from the handler, in an empty working
    directory. *)
Lemma limiter_failure_loses_response_witness :
  ∃ s',
    execute Sample.unlimited (VDict Example.body) Example.idle =
      (Exc (ExcException IOError "e1.out"), s') ∧
    return_dict s' !! "success" = Some (VBool false) ∧
    return_dict s' !! "result" = Some (VStr "cgroup: no such pid") ∧
    fs s' = ∅.
Proof.
  exact (limiter_failure_loses_response Sample.unlimited (VDict Example.body)
           Example.idle (Sample.request Sample.unlimited) ∅
           eq_refl eq_refl eq_refl eq_refl eq_refl).
Defined.

(** ** The arguments of the user's function *)

(** A call of the user's function in the trace of a request is made in the
    shape computed from the popped argument and the rest of the input. *)
Lemma execute_call_shape (E : environment) (body : value) (s : state)
    (r : request) (d : gmap string value) mn meth shape :
  get_params E body s = (Val r, s) →
  ok (package_response E body r) = true →
  input r = VDict d →
  EvCall mn meth shape ∈ events (execute E body s).2 →
  EvCall mn meth shape ∉ events s →
  shape = shape_of (positional (with_context r d)) (keywords (with_context r d)).
Proof.
  intros Hp Hfetch Hin Hev Hnew.
  destruct (execute_trace E body s r d Hp Hfetch Hin) as (evs & Htrace & Huser & _).
  rewrite Htrace in Hev. apply elem_of_app in Hev as [Hev|Hev]; [done|].
  apply elem_of_cons in Hev as [?|Hev]; [done|].
  apply elem_of_cons in Hev as [?|Hev]; [done|].
  apply elem_of_app in Hev as [Hev|Hev].
  - unfold limit_events in Hev.
    repeat (apply elem_of_cons in Hev as [?|Hev]; [done|]).
    by apply elem_of_nil in Hev.
  - rewrite Forall_forall in Huser. destruct (Huser _ Hev) as [?|Heq]; [done|].
    by injection Heq.
Qed.

(** C4, as the code has it.  The reserved key is popped from the input and
    tested for truth.  A true value is passed as the sole positional
    argument, with the remaining keys as keywords; without the key the
    function gets keywords only.  A value that is present but false (0, the
    empty string, false, null, an empty list or object) is dropped: the
    function is called with keywords only. *)
Theorem function_input_call_shape (E : environment) (body : value)
    (s : state) (r : request) (d : gmap string value) :
  get_params E body s = (Val r, s) →
  ok (package_response E body r) = true →
  input r = VDict d →
  ∀ mn meth shape,
    EvCall mn meth shape ∈ events (execute E body s).2 →
    EvCall mn meth shape ∉ events s →
    match d !! "__function_input" with
    | Some v =>
        if truthy v
        then shape = CallPos v (delete "__function_input" (with_context r d))
        else shape = CallKw (delete "__function_input" (with_context r d))
    | None => shape = CallKw (with_context r d)
    end.
Proof.
  intros Hp Hfetch Hin mn meth shape Hev Hnew.
  rewrite (execute_call_shape E body s r d mn meth shape Hp Hfetch Hin Hev Hnew).
  unfold shape_of, positional, keywords, with_context.
  rewrite lookup_insert_ne by done.
  destruct (d !! "__function_input") as [v|] eqn:Hv; simpl;
    [by destruct (truthy v)|].
  by rewrite delete_id by (by rewrite lookup_insert_ne).
Qed.

(** The input {"__function_input": 0}: the function is called with
    keywords only. *)
Lemma function_input_call_shape_witness :
  ∃ shape,
    EvCall "main" "main" shape ∈
      events (execute Sample.positional_fn
                (VDict (Example.body_with "input"
                          (VDict {[ "__function_input" := VInt 0 ]})))
                Example.idle).2 ∧
    shape =
      CallKw (delete "__function_input"
                (with_context
                   (request_of Sample.positional_fn
                      (Example.body_with "input"
                         (VDict {[ "__function_input" := VInt 0 ]}))
                      (VStr "e1") (VInt 100) (VInt 33554432) ("main", "main"))
                   {[ "__function_input" := VInt 0 ]})).
Proof.
  set (d := {[ "__function_input" := VInt 0 ]} : gmap string value).
  set (r := request_of Sample.positional_fn (Example.body_with "input" (VDict d))
              (VStr "e1") (VInt 100) (VInt 33554432) ("main", "main")).
  exists (CallKw (delete "__function_input" (with_context r d))).
  assert (Hev : EvCall "main" "main"
                  (CallKw (delete "__function_input" (with_context r d))) ∈
                events (execute Sample.positional_fn
                          (VDict (Example.body_with "input" (VDict d)))
                          Example.idle).2).
  { vm_compute.
    repeat first [apply list_elem_of_here | apply list_elem_of_further]. }
  split; [exact Hev|].
  exact (function_input_call_shape Sample.positional_fn
           (VDict (Example.body_with "input" (VDict d))) Example.idle r d
           eq_refl eq_refl eq_refl _ _ _ Hev (not_elem_of_nil _)).
Defined.

(** C5, as the code has it.  For a request that reaches the sandbox, the
    input mapping always gets the reserved key "context", holding a mapping
    with the one key "os_session".  Its value is None when auth_url is
    missing (or otherwise false): no session is built.  It is the session
    built from username, password, auth_url and trust_id when auth_url is
    true.  The process is spawned with this mapping, and every call of the
    user's function has it among its keywords. *)
Theorem context_always_injected (E : environment) (dd : gmap string value)
    (s : state) (r : request) (d : gmap string value) :
  get_params E (VDict dd) s = (Val r, s) →
  ok (package_response E (VDict dd) r) = true →
  input r = VDict d →
  let auth_url := default VNone (dd !! "auth_url") in
  let session :=
    if truthy auth_url
    then VSession (default VNone (dd !! "username"))
                  (default VNone (dd !! "password")) auth_url
                  (default VNone (dd !! "trust_id"))
    else VNone in
  let context : value := VDict {[ "os_session" := session ]} in
  (dd !! "auth_url" = None → session = VNone) ∧
  (truthy auth_url = true → ∃ u p a t, session = VSession u p a t) ∧
  (∃ eid dir mn meth arg kw,
     EvSpawn eid dir mn meth arg kw ∈ events (execute E (VDict dd) s).2 ∧
     kw !! "context" = Some context) ∧
  (∀ mn meth shape,
     EvCall mn meth shape ∈ events (execute E (VDict dd) s).2 →
     EvCall mn meth shape ∉ events s →
     kwargs_of shape !! "context" = Some context).
Proof.
  intros Hp Hfetch Hin auth session context.
  destruct (get_params_fields E dd s r s Hp) as (_ & Ha & Hu & Hpw & Ht).
  assert (Hsess : session_of r = session).
  { unfold session_of, session, auth. by rewrite Ha, Hu, Hpw, Ht. }
  assert (Hkw : keywords (with_context r d) !! "context" = Some context).
  { unfold keywords, with_context. rewrite lookup_delete_ne by done.
    by rewrite lookup_insert_eq, Hsess. }
  split; [|split; [|split]].
  - intros Hnone. unfold session, auth. by rewrite Hnone.
  - intros Htrue. unfold session. rewrite Htrue. eauto.
  - destruct (execute_trace E (VDict dd) s r d Hp Hfetch Hin) as (evs & Htrace & _).
    eexists _, _, _, _, _, _. split; [|exact Hkw].
    rewrite Htrace. apply elem_of_app. right.
    apply list_elem_of_further, list_elem_of_here.
  - intros mn meth shape Hev Hnew.
    rewrite (execute_call_shape E (VDict dd) s r d mn meth shape Hp Hfetch Hin Hev Hnew).
    unfold shape_of. destruct (truthy (positional _)); exact Hkw.
Qed.

(** A request without auth_url. *)
Lemma context_always_injected_witness :
  ∃ eid dir mn meth arg kw,
    EvSpawn eid dir mn meth arg kw ∈
      events (execute Sample.returning (VDict Example.body) Example.idle).2 ∧
    kw !! "context" = Some (VDict {[ "os_session" := VNone ]}).
Proof.
  destruct (context_always_injected Sample.returning Example.body Example.idle
              (Sample.request Sample.returning) ∅ eq_refl eq_refl eq_refl)
    as (_ & _ & Hspawn & _).
  exact Hspawn.
Defined.

(** C5 as stated fails for a request without auth_url: the reserved key is
    not omitted.  The function is called with a keyword "context", whose
    session entry is None. *)
Lemma context_present_without_auth_url :
  Example.body !! "auth_url" = None ∧
  ∃ kw,
    EvCall "main" "main" (CallKw kw) ∈
      events (execute Sample.returning (VDict Example.body) Example.idle).2 ∧
    kw !! "context" ≠ None ∧
    kw !! "context" = Some (VDict {[ "os_session" := VNone ]}).
Proof.
  split; [reflexivity|].
  exists (keywords (with_context (Sample.request Sample.returning) ∅)).
  split; [|split; [|reflexivity]].
  - vm_compute.
    repeat first [apply list_elem_of_here | apply list_elem_of_further].
  - discriminate.
Qed.

(** * More about the runtime *)

(** ** The user phase as one step *)

(** The [try] statement of [_invoke_function], in closed form. *)
Lemma invoke_guarded_eq (E : environment) (eid : value) (dir mn meth : string)
    (arg : value) (input : gmap string value) (st : state) :
  invoke_guarded E eid dir mn meth arg input st =
    (guarded_end (user_end E dir mn meth arg input),
     State (<[log_file E eid :=
               guarded_log E eid (user_end E dir mn meth arg input)
                 (user_log E dir mn meth arg input
                    (default "" (fs st !! log_file E eid)))]> (fs st))
           (guarded_dict (user_end E dir mn meth arg input) (return_dict st))
           (user_clock E dir mn meth arg input (clock st))
           (user_trace E dir mn meth arg input (events st))).
Proof.
  unfold invoke_guarded, user_end, user_log, user_clock, user_trace,
    user_called, guarded_end, guarded_dict, guarded_log, finish_line.
  run_child.
  destruct (run_end (import_module E dir mn)) as [module|e|sig]; simpl.
  - destruct (module meth) as [func|]; simpl.
    + destruct (truthy arg); simpl;
        (destruct (run_end (func _)) as [v|[cls str|code|str]|sig]; simpl;
         [..|destruct (resource_error cls str); simpl| | |]);
        rewrite ?lookup_insert_eq; simpl; rewrite ?insert_insert_eq;
        rewrite <- ?app_assoc; reflexivity.
    + rewrite ?lookup_insert_eq; simpl; rewrite ?insert_insert_eq;
        reflexivity.
  - destruct e as [cls str|code|str]; simpl;
      [destruct (resource_error cls str); simpl| |];
      rewrite ?lookup_insert_eq; simpl; rewrite ?insert_insert_eq;
      reflexivity.
  - reflexivity.
Qed.

Section Closed.

Context (E : environment).

(** A request can only be read from a dictionary that has the three
    required keys, and it is then the one [request_of] builds. *)
Lemma get_params_request body s r s' :
  get_params E body s = (Val r, s') →
  ∃ dd eid c m mm,
    body = VDict dd ∧
    dd !! "execution_id" = Some eid ∧ dd !! "cpu" = Some c ∧
    dd !! "memory_size" = Some m ∧
    resolve_entry (default VNone (dd !! "entry")) s = (Val mm, s) ∧
    r = request_of E dd eid c m mm.
Proof.
  intros Hp. destruct (get_params_body E body s r s' Hp) as [dd Hdd].
  pose proof (get_params_state E body s _ _ Hp) as ->.
  unfold get_params in Hp. rewrite Hdd in Hp.
  unfold dict_get, dict_getitem, bind, ret, raise in Hp.
  destruct (dd !! "execution_id") as [eid|] eqn:He; [|done].
  destruct (dd !! "cpu") as [c|] eqn:Hc; [|done].
  destruct (dd !! "memory_size") as [m|] eqn:Hm; [|done].
  destruct (resolve_entry _ s) as [[mm|e|sig] s1] eqn:Hr; [|done..].
  pose proof (resolve_entry_state _ _ _ _ Hr) as ->.
  assert (body = VDict dd) as ->.
  { unfold py_or in Hdd. destruct (truthy body); [done|].
    injection Hdd as <-. by rewrite lookup_empty in He. }
  exists dd, eid, c, m, mm. repeat split; try done.
  injection Hp as <-. unfold request_of, py_or. done.
Qed.

(** Reading the request does not look at the state. *)
Lemma get_params_pure body s1 s2 :
  (get_params E body s1).1 = (get_params E body s2).1.
Proof.
  assert (Hres : ∀ v, (resolve_entry v s1).1 = (resolve_entry v s2).1).
  { intros v. unfold resolve_entry, str_rsplit1, unpack2, bind, ret, raise.
    destruct (truthy v); [|done]. destruct v; try done.
    by destruct (rsplit1 _ _) as [|a [|b [|??]]]. }
  unfold get_params. destruct (py_or body (VDict ∅)); try done.
  unfold dict_get, dict_getitem, bind, ret, raise.
  destruct (d !! "execution_id"); [|done].
  destruct (d !! "cpu"); [|done].
  destruct (d !! "memory_size"); [|done].
  specialize (Hres (default VNone (d !! "entry"))).
  destruct (resolve_entry _ s1) as [[?|?|?] ?],
           (resolve_entry _ s2) as [[?|?|?] ?]; simpl in *; by simplify_eq.
Qed.


(** The child that the limiter lets through, in closed form. *)
Lemma child_run_eq r input s :
  ok (cglimit E (cpu (rlimit r)) (memory_size (rlimit r)) (getpid E)) = true →
  let u := user_end E (zip_file_dir r) (function_module r) (function_method r)
             (positional input) (keywords input) in
  child_run E r input s =
    (guarded_end u,
     State (<[log_file E (execution_id r) :=
               guarded_log E (execution_id r) u
                 (user_log E (zip_file_dir r) (function_module r)
                    (function_method r) (positional input) (keywords input)
                    (start_line E (execution_id r)))]> (fs s))
           (guarded_dict u (<["success" := VBool false]> ∅))
           (user_clock E (zip_file_dir r) (function_module r)
              (function_method r) (positional input) (keywords input) (clock s))
           (user_trace E (zip_file_dir r) (function_module r)
              (function_method r) (positional input) (keywords input)
              (events s ++
               EvSpawn (execution_id r) (zip_file_dir r) (function_module r)
                 (function_method r) (positional input) (keywords input)
               :: limit_events E (rlimit r)))).
Proof.
  intros Hok u. unfold child_run.
  rewrite invoke_limiter_ok by done. rewrite invoke_guarded_eq. fold u.
  simpl. rewrite lookup_insert_eq, insert_insert_eq. simpl.
  by rewrite <- app_assoc.
Qed.

(** The success flag in the dictionary the child leaves. *)
Lemma guarded_dict_success u :
  guarded_dict u (<["success" := VBool false]> ∅) !! "success" =
    Some (VBool match u with Val _ => true | _ => false end).
Proof.
  unfold guarded_dict.
  destruct u as [v|[cls str|code|str]|sig];
    [..|destruct (resource_error cls str)| | |];
    by rewrite ?lookup_insert_eq.
Qed.

End Closed.

(** ** Strings *)


Lemma str_app_nil_r (a : string) : a +:+ "" = a.
Proof.
  induction a as [|ch a IH]; [done|].
  change (String ch (a +:+ "") = String ch a). by rewrite IH.
Qed.




Section Limited.

Context (E : environment) (body : value) (s : state) (r : request)
        (d : gmap string value).

Hypothesis Hparams : get_params E body s = (Val r, s).
Hypothesis Hfetch : ok (package_response E body r) = true.
Hypothesis Hinput : input r = VDict d.
Hypothesis Hlimit :
  ok (cglimit E (cpu (rlimit r)) (memory_size (rlimit r)) (getpid E)) = true.

(** The handler for a request that reaches the user phase, in closed
    form. *)
Lemma execute_limited :
  let arg := positional (with_context r d) in
  let kw := keywords (with_context r d) in
  let u := user_end E (zip_file_dir r) (function_module r) (function_method r)
             arg kw in
  let rd := guarded_dict u (<["success" := VBool false]> ∅) in
  let zero := exitcode_of (guarded_end u) =? 0 in
  execute E body s =
    (Val (Response
            (if zero then default VNone (rd !! "result") else VStr INVOKE_ERROR)
            (user_clock E (zip_file_dir r) (function_module r)
               (function_method r) arg kw (clock s) - clock s)
            (guarded_log E (execution_id r) u
               (user_log E (zip_file_dir r) (function_module r)
                  (function_method r) arg kw (start_line E (execution_id r))))
            (if zero then VBool match u with Val _ => true | _ => false end
             else VBool false)
            200 "application/json"),
     State (delete (log_file E (execution_id r)) (fs s)) rd
           (user_clock E (zip_file_dir r) (function_module r)
              (function_method r) arg kw (clock s))
           (user_trace E (zip_file_dir r) (function_module r)
              (function_method r) arg kw
              (events s ++
               EvDownload (download_url r) (function_id r) (token_of body)
               :: EvSpawn (execution_id r) (zip_file_dir r) (function_module r)
                    (function_method r) arg kw
               :: limit_events E (rlimit r)))).
Proof using Hparams Hfetch Hinput Hlimit.
  intros arg kw u rd zero.
  rewrite (execute_spawned E body s r d Hparams Hfetch Hinput).
  rewrite (child_run_eq E r (with_context r d) (fetched body r s) Hlimit).
  fold arg kw u rd. simpl.
  erewrite get_execution_output_found;
    [|simpl; apply lookup_insert_eq|simpl; apply guarded_dict_success].
  simpl. fold zero. rewrite delete_insert_eq. by rewrite <- app_assoc.
Qed.

End Limited.

(** ** Reading the request: missing keys and odd values *)

(** X1.  [execution_id], [cpu] and [memory_size] are required, and are
    looked up in this order.  A body that is empty or false (line 138 turns
    it into an empty dictionary), or a dictionary without "execution_id",
    makes the handler raise KeyError for "execution_id"; with it but without
    "cpu", KeyError for "cpu"; with both but without "memory_size", KeyError
    for "memory_size".  In each case nothing has been done: the state is
    unchanged. *)
Theorem required_keys (E : environment) (body : value) (s : state) :
  (truthy body = false →
   execute E body s = (Exc (ExcException KeyError "execution_id"), s))
  ∧ (∀ dd, body = VDict dd → dd !! "execution_id" = None →
       execute E body s = (Exc (ExcException KeyError "execution_id"), s))
  ∧ (∀ dd, body = VDict dd → is_Some (dd !! "execution_id") →
       dd !! "cpu" = None →
       execute E body s = (Exc (ExcException KeyError "cpu"), s))
  ∧ (∀ dd, body = VDict dd → is_Some (dd !! "execution_id") →
       is_Some (dd !! "cpu") → dd !! "memory_size" = None →
       execute E body s = (Exc (ExcException KeyError "memory_size"), s)).
Proof.
  assert (Hdict : ∀ dd, py_or body (VDict ∅) = VDict dd →
    match dd !! "execution_id", dd !! "cpu", dd !! "memory_size" with
    | None, _, _ =>
        execute E body s = (Exc (ExcException KeyError "execution_id"), s)
    | Some _, None, _ =>
        execute E body s = (Exc (ExcException KeyError "cpu"), s)
    | Some _, Some _, None =>
        execute E body s = (Exc (ExcException KeyError "memory_size"), s)
    | _, _, _ => True
    end).
  { intros dd Hdd. unfold execute, bind at 1, get_params. rewrite Hdd.
    unfold dict_get, dict_getitem, bind, ret, raise.
    destruct (dd !! "execution_id"); [|done].
    destruct (dd !! "cpu"); [|done].
    by destruct (dd !! "memory_size"). }
  split; [|split; [|split]].
  - intros Hfalse. specialize (Hdict ∅). unfold py_or in Hdict.
    rewrite Hfalse, lookup_empty in Hdict. by apply Hdict.
  - intros dd -> He. specialize (Hdict dd). unfold py_or in Hdict.
    destruct (truthy (VDict dd)) eqn:Ht.
    + rewrite He in Hdict. by apply Hdict.
    + simpl in Ht. destruct (map_to_list dd) eqn:Hl; [|done].
      apply map_to_list_empty_iff in Hl as ->. specialize (Hdict eq_refl).
      by rewrite lookup_empty in Hdict.
  - intros dd -> [eid He] Hc. specialize (Hdict dd). unfold py_or in Hdict.
    rewrite (truthy_dict_lookup _ _ _ He), He, Hc in Hdict. by apply Hdict.
  - intros dd -> [eid He] [c Hc] Hm. specialize (Hdict dd).
    unfold py_or in Hdict.
    rewrite (truthy_dict_lookup _ _ _ He), He, Hc, Hm in Hdict. by apply Hdict.
Qed.

(** An empty JSON object as the body. *)
Lemma required_keys_witness :
  execute Sample.returning (VDict ∅) Example.idle =
    (Exc (ExcException KeyError "execution_id"), Example.idle).
Proof.
  exact (proj1 (required_keys Sample.returning (VDict ∅) Example.idle) eq_refl).
Defined.

(** X2.  An [entry] that is present but false (null, the empty string, 0,
    false, an empty list or object) is treated like a missing one: the
    function is main.main.  An [entry] that is true but not a string has no
    [rsplit]: the handler raises AttributeError before anything is done. *)
Theorem entry_false_or_not_a_string (E : environment)
    (dd : gmap string value) (s : state) (eid c m v : value) :
  dd !! "execution_id" = Some eid → dd !! "cpu" = Some c →
  dd !! "memory_size" = Some m → dd !! "entry" = Some v →
  (truthy v = false →
   ∃ r, get_params E (VDict dd) s = (Val r, s) ∧
        function_module r = "main" ∧ function_method r = "main")
  ∧ (truthy v = true → (∀ e, v ≠ VStr e) →
     execute E (VDict dd) s = (Exc (ExcException AttributeError "rsplit"), s)).
Proof.
  intros He Hc Hm Hentry.
  pose proof (get_params_dict E dd s eid c m He Hc Hm) as Hp.
  rewrite Hentry in Hp. simpl in Hp. unfold resolve_entry, bind in Hp.
  split.
  - intros Hf. rewrite Hf in Hp. unfold ret in Hp. rewrite Hp. eauto.
  - intros Ht Hns. rewrite Ht in Hp. unfold execute, bind at 1. rewrite Hp.
    destruct v; try done. by destruct (Hns s0).
Qed.

(** The entry is the empty string. *)
Lemma entry_false_or_not_a_string_witness :
  ∃ r, get_params Sample.returning
         (VDict (Example.body_with "entry" (VStr ""))) Example.idle
       = (Val r, Example.idle) ∧
       function_module r = "main" ∧ function_method r = "main".
Proof.
  exact (proj1 (entry_false_or_not_a_string Sample.returning
                  (Example.body_with "entry" (VStr "")) Example.idle
                  (VStr "e1") (VInt 100) (VInt 33554432) (VStr "")
                  eq_refl eq_refl eq_refl eq_refl) eq_refl).
Defined.

(** X3.  The input of a request.  A missing or false [input] (null, 0, the
    empty string, an empty list or object) is replaced by an empty mapping.
    An [input] that is true but no mapping (a string, a number, a list) is
    only found out after the package is fetched: [input.update] raises
    AttributeError, the download sidecar has been called, and no process is
    spawned and no file touched. *)
Theorem input_must_be_a_mapping (E : environment) (dd : gmap string value)
    (s : state) (r : request) :
  get_params E (VDict dd) s = (Val r, s) →
  (truthy (default VNone (dd !! "input")) = false → input r = VDict ∅)
  ∧ (truthy (default VNone (dd !! "input")) = true →
     input r = default VNone (dd !! "input"))
  ∧ (ok (package_response E (VDict dd) r) = true →
     truthy (default VNone (dd !! "input")) = true →
     (∀ d, dd !! "input" ≠ Some (VDict d)) →
     ∃ s', execute E (VDict dd) s =
             (Exc (ExcException AttributeError "update"), s') ∧
           events s' =
             (events s ++ [EvDownload (download_url r) (function_id r)
                             (token_of (VDict dd))])%list ∧
           fs s' = fs s).
Proof.
  intros Hp. destruct (get_params_fields E dd s r s Hp) as (Hin & _).
  unfold py_or in Hin. split; [|split].
  - intros Hf. by rewrite Hf in Hin.
  - intros Ht. by rewrite Ht in Hin.
  - intros Hok Ht Hnd. rewrite Ht in Hin.
    rewrite (execute_input_not_dict E (VDict dd) s r Hp Hok).
    + eexists. split; [reflexivity|]. done.
    + intros d Hd. rewrite Hd in Hin. destruct (dd !! "input") as [v|]; [|done].
      simpl in Hin. subst v. by destruct (Hnd d).
Qed.

(** The input is the string "hello". *)
Lemma input_must_be_a_mapping_witness :
  ∃ s', execute Sample.returning
          (VDict (Example.body_with "input" (VStr "hello"))) Example.idle =
          (Exc (ExcException AttributeError "update"), s') ∧
        events s' = [EvDownload VNone (VStr "f1") VNone] ∧
        fs s' = ∅.
Proof.
  destruct (input_must_be_a_mapping Sample.returning
              (Example.body_with "input" (VStr "hello")) Example.idle
              (request_of Sample.returning
                 (Example.body_with "input" (VStr "hello"))
                 (VStr "e1") (VInt 100) (VInt 33554432) ("main", "main"))
              eq_refl) as (_ & _ & Hbad).
  destruct (Hbad eq_refl eq_refl) as (s' & Hrun & Hev & Hfs).
  { intros d. vm_compute. discriminate. }
  exists s'. split; [exact Hrun|]. split; [exact Hev|exact Hfs].
Defined.

(** ** What the response says about the run of the function *)

Section Phase.

Context (E : environment) (dir mn meth : string) (arg : value)
        (input : gmap string value) (module : pymodule) (func : callable).
Hypothesis Himport : run_end (import_module E dir mn) = Val module.
Hypothesis Hattr : module meth = Some func.


End Phase.

Section Loaded.

Context (E : environment) (body : value) (s : state) (r : request)
        (d : gmap string value) (module : pymodule) (func : callable).

Hypothesis Hparams : get_params E body s = (Val r, s).
Hypothesis Hfetch : ok (package_response E body r) = true.
Hypothesis Hinput : input r = VDict d.
Hypothesis Hlimit :
  ok (cglimit E (cpu (rlimit r)) (memory_size (rlimit r)) (getpid E)) = true.
Hypothesis Himport :
  run_end (import_module E (zip_file_dir r) (function_module r)) = Val module.
Hypothesis Hattr : module (function_method r) = Some func.





End Loaded.






Section Limited.

Context (E : environment) (body : value) (s : state) (r : request)
        (d : gmap string value).

Hypothesis Hparams : get_params E body s = (Val r, s).
Hypothesis Hfetch : ok (package_response E body r) = true.
Hypothesis Hinput : input r = VDict d.




(** X10.  The success flag of a response is a boolean, and it is true only
    if the limiter agreed, the module was loaded, the method found and the
    function returned; the output is then the returned value. *)
Theorem success_only_on_return (resp : response) (s' : state) :
  execute E body s = (Val resp, s') →
  (∃ b, success resp = VBool b) ∧
  (success resp = VBool true →
   ok (cglimit E (cpu (rlimit r)) (memory_size (rlimit r)) (getpid E)) = true ∧
   ∃ module func V,
     run_end (import_module E (zip_file_dir r) (function_module r)) = Val module ∧
     module (function_method r) = Some func ∧
     run_end (func (shape_of (positional (with_context r d))
                             (keywords (with_context r d)))) = Val V ∧
     output resp = V).
Proof using Hparams Hfetch Hinput.
  destruct (ok (cglimit E (cpu (rlimit r)) (memory_size (rlimit r)) (getpid E)))
    eqn:Hlimit.
  - rewrite (execute_limited E body s r d Hparams Hfetch Hinput Hlimit).
    intros [= <- _]. simpl. split; [destruct (_ =? 0); eauto|].
    intros Hs. split; [done|]. unfold user_end in *.
    destruct (run_end (import_module E (zip_file_dir r) (function_module r)))
      as [module|e|sig] eqn:Himport.
    + destruct (module (function_method r)) as [func|] eqn:Hattr.
      * destruct (run_end (func _)) as [V|e|sig] eqn:Hend.
        -- exists module, func, V. by repeat split.
        -- simpl in Hs. by destruct (_ =? 0).
        -- simpl in Hs. by destruct (_ =? 0).
      * simpl in Hs. by destruct (_ =? 0).
    + simpl in Hs. by destruct (_ =? 0).
    + simpl in Hs. by destruct (_ =? 0).
  - rewrite (execute_spawned E body s r d Hparams Hfetch Hinput).
    rewrite (child_run_refused E r (with_context r d) (fetched body r s) Hlimit).
    simpl. intros Hrun.
    destruct (get_execution_output_inv E _ _ _ _ _ _ Hrun)
      as (_ & _ & _ & _ & Hcls).
    simpl in Hcls. rewrite lookup_insert_eq in Hcls.
    destruct Hcls as [[= <-] _]. split; [eauto|done].
Qed.

(** X11.  When the limiter refuses and a file named like the log artifact
    is already in the working directory, the handler does answer: with the
    sidecar's content as output, success false and status 200, and with the
    old content of that file as logs; the file is then removed. *)
Theorem refused_limiter_serves_stale_log (old : string) :
  ok (cglimit E (cpu (rlimit r)) (memory_size (rlimit r)) (getpid E)) = false →
  fs s !! log_file E (execution_id r) = Some old →
  ∃ resp s',
    execute E body s = (Val resp, s') ∧
    success resp = VBool false ∧ status resp = 200 ∧
    output resp = VStr (content (cglimit E (cpu (rlimit r))
                                   (memory_size (rlimit r)) (getpid E))) ∧
    logs resp = old ∧
    fs s' !! log_file E (execution_id r) = None.
Proof using Hparams Hfetch Hinput.
  intros Hlimit Hold.
  rewrite (execute_spawned E body s r d Hparams Hfetch Hinput).
  rewrite (child_run_refused E r (with_context r d) (fetched body r s) Hlimit).
  simpl.
  erewrite get_execution_output_found;
    [|exact Hold|simpl; apply lookup_insert_eq].
  eexists _, _. split; [reflexivity|]. simpl.
  split; [done|]. split; [done|].
  split; [by rewrite lookup_insert_ne, lookup_insert_eq|].
  split; [done|]. apply lookup_delete_eq.
Qed.

End Limited.



(** A function that returns 42. *)
Lemma success_only_on_return_witness :
  ∃ module func V,
    run_end (import_module Sample.returning "/var/qinling/packages/f1" "main")
      = Val module ∧
    module "main" = Some func ∧
    run_end (func (CallKw (keywords (with_context
                                       (Sample.request Sample.returning) ∅))))
      = Val V ∧
    V = VInt 42.
Proof.
  pose proof (execute_limited Sample.returning (VDict Example.body) Example.idle
                (Sample.request Sample.returning) ∅
                eq_refl eq_refl eq_refl eq_refl) as Hrun.
  destruct (success_only_on_return Sample.returning (VDict Example.body)
              Example.idle (Sample.request Sample.returning) ∅
              eq_refl eq_refl eq_refl _ _ Hrun) as [_ Honly].
  destruct (Honly eq_refl) as (_ & module & func & V & Hi & Ha & He & Ho).
  exists module, func, V. split; [exact Hi|]. split; [exact Ha|].
  split; [exact He|]. symmetry. exact Ho.
Defined.

(** The limiter refuses while an old artifact is in the way. *)
Lemma refused_limiter_serves_stale_log_witness :
  ∃ resp s',
    execute Sample.unlimited (VDict Example.body) More.stale = (Val resp, s') ∧
    output resp = VStr "cgroup: no such pid" ∧
    logs resp = "output of an earlier run" ∧
    fs s' !! "e1.out" = None.
Proof.
  destruct (refused_limiter_serves_stale_log Sample.unlimited
              (VDict Example.body) More.stale (Sample.request Sample.unlimited)
              ∅ eq_refl eq_refl eq_refl "output of an earlier run"
              eq_refl eq_refl)
    as (resp & s' & Hrun & _ & _ & Hout & Hlogs & Hfs).
  exists resp, s'. split; [exact Hrun|]. split; [exact Hout|].
  split; [exact Hlogs|exact Hfs].
Defined.

(** ** Ceilings, sidecars and arguments *)



(** X13.  The first thing the target of the child does is to set the three
    local ceilings (1024 open files, 128 processes, files of 61440 bytes),
    in the order in which the dictionary of line 50 yields them, each with
    the hard limit it found; only then does it call the cglimit sidecar,
    with the cpu and memory_size it was given and its own pid.  Everything
    after that is user code, and there is none when the sidecar refuses. *)
Theorem ceilings_set_first (E : environment) (eid : value)
    (dir mn meth : string) (arg : value) (input : gmap string value)
    (rl : rlimit_t) (s : state) :
  ∃ ceilings rest,
    events (_invoke_function E eid dir mn meth arg input rl s).2 =
      (events s ++ ceilings ++
       EvCglimit (cpu rl) (memory_size rl) (getpid E) :: rest)%list ∧
    ceilings ≡ₚ
      [EvSetrlimit RLIMIT_NOFILE 1024 (getrlimit E RLIMIT_NOFILE).2;
       EvSetrlimit RLIMIT_NPROC 128 (getrlimit E RLIMIT_NPROC).2;
       EvSetrlimit RLIMIT_FSIZE 61440 (getrlimit E RLIMIT_FSIZE).2] ∧
    Forall (λ ev, is_user_code ev = true) rest ∧
    (ok (cglimit E (cpu rl) (memory_size rl) (getpid E)) = false → rest = []).
Proof.
  exists [EvSetrlimit RLIMIT_NOFILE 1024 (getrlimit E RLIMIT_NOFILE).2;
          EvSetrlimit RLIMIT_NPROC 128 (getrlimit E RLIMIT_NPROC).2;
          EvSetrlimit RLIMIT_FSIZE 61440 (getrlimit E RLIMIT_FSIZE).2].
  destruct (ok (cglimit E (cpu rl) (memory_size rl) (getpid E))) eqn:Hok.
  - rewrite invoke_limiter_ok by done.
    destruct (invoke_guarded _ _ _ _ _ _ _ _) as [o st'] eqn:Hrun.
    apply guarded_events in Hrun as (evs & Hev & Huser). simpl in *.
    exists evs. split; [by rewrite Hev, <- app_assoc|]. split; [done|].
    split; [|done].
    eapply Forall_impl; [exact Huser|]. by intros ev [->| ->].
  - rewrite invoke_limiter_failure by done. simpl.
    exists []. split; [done|]. split; [done|].
    split; [apply Forall_nil_2|done].
Qed.



(** X15.  What the sidecars are sent.  The download sidecar is called once,
    first, with the download_url, function_id and token of the body (null
    where the body has none).  If the cglimit sidecar is called, it is with
    the cpu and memory_size of the body and the pid of the child; and the
    module is imported from /var/qinling/packages/<function_id>. *)
Theorem sidecar_payloads (E : environment) (dd : gmap string value)
    (s : state) (r : request) :
  get_params E (VDict dd) s = (Val r, s) →
  ∃ rest,
    events (execute E (VDict dd) s).2 =
      (events s ++
       EvDownload (default VNone (dd !! "download_url"))
                  (default VNone (dd !! "function_id"))
                  (default VNone (dd !! "token")) :: rest)%list ∧
    (∀ a b c, EvDownload a b c ∉ rest) ∧
    (∀ c m pid, EvCglimit c m pid ∈ rest →
       dd !! "cpu" = Some c ∧ dd !! "memory_size" = Some m ∧ pid = getpid E) ∧
    (∀ path mn, EvImport path mn ∈ rest →
       path = "/var/qinling/packages/"
              +:+ pystr E (default VNone (dd !! "function_id"))).
Proof.
  intros Hp.
  destruct (get_params_request E _ _ _ _ Hp)
    as (dd' & eid & c & m & mm & [= <-] & He & Hc & Hm & _ & Hr).
  assert (Htoken : token_of (VDict dd) = default VNone (dd !! "token")).
  { unfold token_of, py_or. by rewrite (truthy_dict_lookup _ _ _ He). }
  assert (Hnil : ∃ rest,
    (events s ++ [EvDownload (download_url r) (function_id r) (token_of (VDict dd))])%list =
      (events s ++
       EvDownload (default VNone (dd !! "download_url"))
                  (default VNone (dd !! "function_id"))
                  (default VNone (dd !! "token")) :: rest)%list ∧
    (∀ a b c, EvDownload a b c ∉ rest) ∧
    (∀ c m pid, EvCglimit c m pid ∈ rest →
       dd !! "cpu" = Some c ∧ dd !! "memory_size" = Some m ∧ pid = getpid E) ∧
    (∀ path mn, EvImport path mn ∈ rest →
       path = "/var/qinling/packages/"
              +:+ pystr E (default VNone (dd !! "function_id")))).
  { exists []. rewrite Htoken, Hr. simpl. split; [done|].
    split; [intros ???; apply not_elem_of_nil|].
    split; intros; by exfalso; eapply not_elem_of_nil. }
  destruct (ok (package_response E (VDict dd) r)) eqn:Hfetch.
  - destruct (input r) as [| | | | |d|] eqn:Hin;
      try (rewrite (execute_input_not_dict E (VDict dd) s r Hp Hfetch);
           [exact Hnil | by rewrite Hin]).
    destruct (execute_trace E (VDict dd) s r d Hp Hfetch Hin)
      as (evs & Htrace & Huser & _).
    rewrite Htrace, Htoken. rewrite Forall_forall in Huser.
    eexists. split; [by rewrite Hr|]. split; [|split].
    + intros a b c' Hev. apply elem_of_cons in Hev as [?|Hev]; [done|].
      apply elem_of_app in Hev as [Hev|Hev].
      * unfold limit_events in Hev.
        repeat (apply elem_of_cons in Hev as [?|Hev]; [done|]).
        by apply elem_of_nil in Hev.
      * by destruct (Huser _ Hev).
    + intros c' m' pid Hev. apply elem_of_cons in Hev as [?|Hev]; [done|].
      apply elem_of_app in Hev as [Hev|Hev].
      * unfold limit_events in Hev.
        repeat (apply elem_of_cons in Hev as [Heq|Hev]; [try done|]).
        -- by injection Heq as -> -> ->.
        -- by apply elem_of_nil in Hev.
      * by destruct (Huser _ Hev).
    + intros path mn Hev. apply elem_of_cons in Hev as [?|Hev]; [done|].
      apply elem_of_app in Hev as [Hev|Hev].
      * unfold limit_events in Hev.
        repeat (apply elem_of_cons in Hev as [?|Hev]; [done|]).
        by apply elem_of_nil in Hev.
      * destruct (Huser _ Hev) as [Heq|?]; [|done].
        injection Heq as -> _. by rewrite Hr.
  - rewrite (execute_fetch_failed E (VDict dd) s r Hp Hfetch). exact Hnil.
Qed.

(** A request that gets as far as the call of the function. *)
Lemma sidecar_payloads_witness :
  ∃ rest,
    events (execute Sample.returning (VDict Example.body) Example.idle).2 =
      EvDownload VNone (VStr "f1") VNone :: rest ∧
    (∀ c m pid, EvCglimit c m pid ∈ rest →
       Example.body !! "cpu" = Some c ∧
       Example.body !! "memory_size" = Some m ∧ pid = 4242).
Proof.
  destruct (sidecar_payloads Sample.returning Example.body Example.idle
              (Sample.request Sample.returning) eq_refl)
    as (rest & Hev & _ & Hcg & _).
  exists rest. split; [exact Hev|exact Hcg].
Defined.

(** X16.  What the function gets as keywords.  In every call of the user's
    function the reserved key "__function_input" is not among the keywords,
    and every key of the input other than it and "context" is passed on with
    the value the request gave it. *)
Theorem input_keys_passed_on (E : environment) (body : value) (s : state)
    (r : request) (d : gmap string value) (mn meth : string)
    (shape : call_shape) :
  get_params E body s = (Val r, s) →
  ok (package_response E body r) = true →
  input r = VDict d →
  EvCall mn meth shape ∈ events (execute E body s).2 →
  EvCall mn meth shape ∉ events s →
  kwargs_of shape !! "__function_input" = None ∧
  ∀ k, k ≠ "context" → k ≠ "__function_input" → kwargs_of shape !! k = d !! k.
Proof.
  intros Hp Hfetch Hin Hev Hnew.
  rewrite (execute_call_shape E body s r d mn meth shape Hp Hfetch Hin Hev Hnew).
  assert (kwargs_of (shape_of (positional (with_context r d))
                              (keywords (with_context r d)))
          = keywords (with_context r d)) as ->.
  { unfold shape_of. by destruct (truthy _). }
  unfold keywords, with_context. split; [apply lookup_delete_eq|].
  intros k Hc Hf. rewrite lookup_delete_ne by done.
  by rewrite lookup_insert_ne.
Qed.

(** The input {"__function_input": 7, "name": "qinling"}. *)
Lemma input_keys_passed_on_witness :
  ∃ shape,
    EvCall "main" "main" shape ∈
      events (execute Sample.positional_fn (VDict More.with_input)
                Example.idle).2 ∧
    positional_of shape = Some (VInt 7) ∧
    kwargs_of shape !! "__function_input" = None ∧
    kwargs_of shape !! "name" = Some (VStr "qinling").
Proof.
  set (r := request_of Sample.positional_fn More.with_input (VStr "e1")
              (VInt 100) (VInt 33554432) ("main", "main")).
  set (shape := CallPos (VInt 7)
                  (keywords (with_context r More.input_of_with_input))).
  assert (Hev : EvCall "main" "main" shape ∈
                events (execute Sample.positional_fn (VDict More.with_input)
                          Example.idle).2).
  { vm_compute.
    repeat first [apply list_elem_of_here | apply list_elem_of_further]. }
  destruct (input_keys_passed_on Sample.positional_fn (VDict More.with_input)
              Example.idle r More.input_of_with_input "main" "main" shape
              eq_refl eq_refl eq_refl Hev (not_elem_of_nil _)) as [Hfi Hkeys].
  exists shape. split; [exact Hev|]. split; [reflexivity|].
  split; [exact Hfi|]. exact (Hkeys "name" ltac:(discriminate) ltac:(discriminate)).
Defined.

(** X17.  Each request gets a dictionary of its own for the result: what an
    earlier invocation left in the shared dictionary has no influence on
    the response, or on the exception, of the next one. *)
Theorem previous_result_never_leaks (E : environment) (body : value)
    (s : state) (left : gmap string value) :
  (execute E body (State (fs s) left (clock s) (events s))).1 =
  (execute E body s).1.
Proof.
  set (s0 := State (fs s) left (clock s) (events s)).
  pose proof (get_params_pure E body s0 s) as Hpure.
  destruct (get_params E body s0) as [o0 s1] eqn:Hp0.
  destruct (get_params E body s) as [o s2] eqn:Hp.
  pose proof (get_params_state E body s0 _ _ Hp0) as ->.
  pose proof (get_params_state E body s _ _ Hp) as ->.
  simpl in Hpure. subst o0.
  destruct o as [r|e|sig].
  - destruct (ok (package_response E body r)) eqn:Hfetch.
    + destruct (input r) as [| | | | |d|] eqn:Hin;
        try (rewrite (execute_input_not_dict E body s0 r Hp0 Hfetch),
                     (execute_input_not_dict E body s r Hp Hfetch);
             [done | by rewrite Hin | by rewrite Hin]).
      rewrite (execute_spawned E body s0 r d Hp0 Hfetch Hin).
      rewrite (execute_spawned E body s r d Hp Hfetch Hin).
      reflexivity.
    + rewrite (execute_fetch_failed E body s0 r Hp0 Hfetch).
      by rewrite (execute_fetch_failed E body s r Hp Hfetch).
  - assert (Hexc : ∀ st, get_params E body st = (Exc e, st) →
                          (execute E body st).1 = Exc e).
    { intros st Hst. unfold execute, bind at 1. by rewrite Hst. }
    by rewrite (Hexc s0 Hp0), (Hexc s Hp).
  - assert (Hkill : ∀ st, get_params E body st = (Kill sig, st) →
                           (execute E body st).1 = Kill sig).
    { intros st Hst. unfold execute, bind at 1. by rewrite Hst. }
    by rewrite (Hkill s0 Hp0), (Hkill s Hp).
Qed.
